(** * synack-mission-bot: the two polling loops of mission_bot.go

    A shallow embedding of [mission_bot.go].  The HTTP boundary, the token
    channel and standard input are scripted: a [World] holds what the
    platform will answer to each request, in order, and records every
    externally visible action of the program in a trace.  Each Go function
    is a computation over that world; the two [for] loops are unrolled a
    given number of times. *)

From Stdlib Require Import ZArith String Ascii List Bool Lia DecimalString.
From stdpp Require Import gmap strings.
Import ListNotations.
Local Open Scope Z_scope.

(** ** The Go library functions the program calls *)

(** Go's [int] and [time.Duration] are 64-bit signed integers. *)
Definition int64 (z : Z) : Z := (z + 2 ^ 63) mod 2 ^ 64 - 2 ^ 63.

Module time.
(** [time.Duration] counts nanoseconds. *)
Definition Duration (z : Z) : Z := int64 z.
Definition Second : Z := 1000000000.
Definition Minute : Z := 60 * Second.
(** [d * time.Second], with the wrap-around of the 64-bit product. *)
Definition mul (a b : Z) : Z := int64 (a * b).
End time.

(** Go strings are byte sequences: [byteAt s i] is [s[i]] (0 past the end),
    [skip n s] is [s[n:]] and [upto n s] is [s[:n]]. *)
Definition byteOf (c : ascii) : Z := Z.of_N (N_of_ascii c).

Definition byteAt (s : string) (i : nat) : Z :=
  match String.get i s with
  | Some c => byteOf c
  | None => 0
  end.

Fixpoint skip (n : nat) (s : string) : string :=
  match n, s with
  | S n', String _ s' => skip n' s'
  | _, _ => s
  end.

Fixpoint upto (n : nat) (s : string) : string :=
  match n, s with
  | S n', String c s' => String c (upto n' s')
  | _, _ => EmptyString
  end.

Module utf8.
Definition RuneError : Z := 65533.
Definition RuneSelf : Z := 128.
Definition UTFMax : nat := 4.

(** The table [first]: what the first byte of a sequence says about it.
    [0xF0] is an ASCII byte, [0xF1] an invalid one; otherwise the low
    three bits give the size of the sequence and the high four bits the
    index of the range accepted for its second byte. *)
Definition first (b : Z) : Z :=
  if b <? 128 then 240
  else if b <? 194 then 241
  else if b <? 224 then 2
  else if b =? 224 then 19
  else if b <? 237 then 3
  else if b =? 237 then 35
  else if b <? 240 then 3
  else if b =? 240 then 52
  else if b <? 244 then 4
  else if b =? 244 then 68
  else 241.

(** The table [acceptRanges]: lowest and highest second byte. *)
Definition acceptRanges (i : Z) : Z * Z :=
  if i =? 0 then (128, 191)
  else if i =? 1 then (160, 191)
  else if i =? 2 then (128, 159)
  else if i =? 3 then (144, 191)
  else if i =? 4 then (128, 143)
  else (0, 0).

(** [utf8.DecodeRuneInString]: the first rune of [s] and its width in
    bytes; [(RuneError, 1)] when the bytes are no valid encoding. *)
Definition DecodeRuneInString (s : string) : Z * nat :=
  let n := String.length s in
  if (n <? 1)%nat then (RuneError, 0%nat)
  else
    let s0 := byteAt s 0 in
    let x := first s0 in
    if 240 <=? x then ((if x =? 240 then s0 else RuneError), 1%nat)
    else
      let sz := Z.to_nat (Z.land x 7) in
      let accept := acceptRanges (Z.shiftr x 4) in
      if (n <? sz)%nat then (RuneError, 1%nat)
      else
        let s1 := byteAt s 1 in
        if (s1 <? fst accept) || (snd accept <? s1) then (RuneError, 1%nat)
        else if (sz <=? 2)%nat
        then (Z.lor (Z.shiftl (Z.land s0 31) 6) (Z.land s1 63), 2%nat)
        else
          let s2 := byteAt s 2 in
          if (s2 <? 128) || (191 <? s2) then (RuneError, 1%nat)
          else if (sz <=? 3)%nat
          then (Z.lor (Z.lor (Z.shiftl (Z.land s0 15) 12)
                             (Z.shiftl (Z.land s1 63) 6))
                      (Z.land s2 63), 3%nat)
          else
            let s3 := byteAt s 3 in
            if (s3 <? 128) || (191 <? s3) then (RuneError, 1%nat)
            else (Z.lor (Z.lor (Z.lor (Z.shiftl (Z.land s0 7) 18)
                                      (Z.shiftl (Z.land s1 63) 12))
                               (Z.shiftl (Z.land s2 63) 6))
                        (Z.land s3 63), 4%nat).

(** [utf8.RuneStart]: the byte is not a continuation byte. *)
Definition RuneStart (b : Z) : bool := negb (Z.land b 192 =? 128).

(** The loop of [DecodeLastRuneInString] that walks back from [start] to
    the closest byte that may start a rune, no further than [lim]; [steps]
    bounds the walk (at most [UTFMax - 1] bytes). *)
Fixpoint walkBack (steps : nat) (s : string) (start lim : Z) : Z :=
  match steps with
  | O => start
  | S k =>
      if start <? lim then start
      else if RuneStart (byteAt s (Z.to_nat start)) then start
      else walkBack k s (start - 1) lim
  end.

(** [utf8.DecodeLastRuneInString]: the last rune of [s] and its width. *)
Definition DecodeLastRuneInString (s : string) : Z * nat :=
  let end_ := Z.of_nat (String.length s) in
  if end_ =? 0 then (RuneError, 0%nat)
  else
    let start := end_ - 1 in
    let r := byteAt s (Z.to_nat start) in
    if r <? RuneSelf then (r, 1%nat)
    else
      let lim := Z.max 0 (end_ - Z.of_nat UTFMax) in
      let start := walkBack UTFMax s (start - 1) lim in
      let start := Z.max 0 start in
      let '(r, size) := DecodeRuneInString (skip (Z.to_nat start) s) in
      if negb (start + Z.of_nat size =? end_) then (RuneError, 1%nat)
      else (r, size).
End utf8.

Module unicode.
(** [unicode.IsSpace]: the white space of Unicode's [White_Space]
    property. *)
Definition IsSpace (r : Z) : bool :=
  if (0 <=? r) && (r <=? 255)
  then (r =? 9) || (r =? 10) || (r =? 11) || (r =? 12) || (r =? 13)
       || (r =? 32) || (r =? 133) || (r =? 160)
  else (r =? 5760) || ((8192 <=? r) && (r <=? 8202)) || (r =? 8232)
       || (r =? 8233) || (r =? 8239) || (r =? 8287) || (r =? 12288).
End unicode.

Module strings.
(** [strings.Contains(s, substr)]: [substr] occurs somewhere in [s]. *)
Fixpoint Contains (s substr : string) : bool :=
  if String.prefix substr s then true
  else match s with
       | EmptyString => false
       | String _ s' => Contains s' substr
       end.

(** [strings.TrimLeftFunc]: drop the leading runes that satisfy [f].  Each
    round drops one rune; [fuel] bounds the rounds. *)
Fixpoint trimLeft (fuel : nat) (f : Z -> bool) (s : string) : string :=
  match fuel with
  | O => s
  | S k =>
      match s with
      | EmptyString => EmptyString
      | _ =>
          let '(r, size) := utf8.DecodeRuneInString s in
          if f r then trimLeft k f (skip size s) else s
      end
  end.

Definition TrimLeftFunc (s : string) (f : Z -> bool) : string :=
  trimLeft (String.length s) f s.

(** [strings.TrimRightFunc]: drop the trailing runes that satisfy [f]. *)
Fixpoint trimRight (fuel : nat) (f : Z -> bool) (s : string) : string :=
  match fuel with
  | O => s
  | S k =>
      match s with
      | EmptyString => EmptyString
      | _ =>
          let '(r, size) := utf8.DecodeLastRuneInString s in
          if f r then trimRight k f (upto (String.length s - size) s) else s
      end
  end.

Definition TrimRightFunc (s : string) (f : Z -> bool) : string :=
  trimRight (String.length s) f s.

Definition TrimFunc (s : string) (f : Z -> bool) : string :=
  TrimRightFunc (TrimLeftFunc s f) f.

(** [strings.TrimSpace]: [s] without its leading and trailing white space,
    as Unicode defines it.  (Go's fast path for ASCII bytes gives the
    result of [TrimFunc].) *)
Definition TrimSpace (s : string) : string := TrimFunc s unicode.IsSpace.
End strings.

Module bufio.
(** [Reader.ReadString(delim)]: the input up to and including the first
    [delim], and what is left; all of the input when it holds no [delim]
    (the error that comes with it is dropped by the caller). *)
Fixpoint ReadString (delim : ascii) (input : string) : string * string :=
  match input with
  | EmptyString => (EmptyString, EmptyString)
  | String c rest =>
      if Ascii.eqb c delim then (String c EmptyString, rest)
      else let '(line, rest') := ReadString delim rest in (String c line, rest')
  end.
End bufio.

Module strconv.
(** The verb [%d] of [fmt]: the decimal digits of an [int]. *)
Definition Itoa (z : Z) : string := NilZero.string_of_int (Z.to_int z).

Definition digit (c : ascii) : option Z :=
  let n := Z.of_N (N_of_ascii c) in
  if (48 <=? n) && (n <=? 57) then Some (n - 48) else None.

(** The digits of [s] read in base ten, after the digits [acc] already read;
    [None] when a byte is not a digit. *)
Fixpoint digits (acc : Z) (s : string) : option Z :=
  match s with
  | EmptyString => Some acc
  | String c s' =>
      match digit c with
      | Some d => digits (acc * 10 + d) s'
      | None => None
      end
  end.

(** [strconv.Atoi]: an optional sign, then one or more decimal digits, the
    value within the range of [int]; [None] stands for the error result. *)
Definition Atoi (s : string) : option Z :=
  let '(neg, body) :=
    match s with
    | String "-" s' => (true, s')
    | String "+" s' => (false, s')
    | _ => (false, s)
    end in
  match body with
  | EmptyString => None
  | _ =>
      match digits 0 body with
      | Some n =>
          let v := if neg then - n else n in
          if (- 2 ^ 63 <=? v) && (v <=? 2 ^ 63 - 1) then Some v else None
      | None => None
      end
  end.
End strconv.

(** ** Data model *)

Record Task : Type := mkTask {
  ID : string;
  CampaignUid : string;
  ListingUid : string;
  OrganizationUid : string }.

Record Target : Type := mkTarget { Slug : string }.

(** A Go [error] carries its message; [None] is [nil]. *)
Definition error : Type := option string.

(** A pair [(value, error)] as the fetch functions return it. *)
Inductive result (A : Type) : Type :=
| Ok (a : A)
| Err (msg : string).
Arguments Ok {A} a.
Arguments Err {A} msg.

(** What decoding the JSON body of a response gives. *)
Inductive Body (B : Type) : Type :=
| Decoded (b : B)
| DecodeError (msg : string).
Arguments Decoded {B} b.
Arguments DecodeError {B} msg.

(** What one call of [client.Do] gives the caller: [DoError] when
    [http.NewRequest] or [client.Do] returned an error, else the response
    that [client.Do] handed back (the redirects that the client follows by
    itself are inside the call), with its status code, the value of its
    [Retry-After] header (empty when the header is absent) and its body. *)
Inductive Reply (B : Type) : Type :=
| DoError (msg : string)
| Response (StatusCode : Z) (RetryAfter : string) (body : Body B).
Arguments DoError {B} msg.
Arguments Response {B} StatusCode RetryAfter body.

(** The externally visible actions of the program, in the order they
    happen.  [GetTasks], [PostClaim], [GetTargets] and [PostSignup] stand
    for one call of [client.Do] each, with what it gave back.  [CallSignup]
    marks the call of [signupTarget] made by
    [pollUnregisteredTargets] (as opposed to the retries that [signupTarget]
    makes itself); [Log] holds the text of a line of the logger; [Usage] is
    the call of [flag.Usage], [Exit] that of [os.Exit], and [Go] the start
    of the goroutine that runs [pollUnregisteredTargets]. *)
Inductive Event : Type :=
| ChanRecv (token : string)
| ChanSend (token : string)
| GetTasks (token : string) (r : Reply (list Task))
| PostClaim (token : string) (task : Task) (r : Reply unit)
| GetTargets (token : string) (r : Reply (list Target))
| CallSignup (slug : string)
| PostSignup (token slug : string) (r : Reply unit)
| Sleep (d : Z)
| Stdout (msg : string)
| Log (msg : string)
| ReadStdin (line : string)
| Usage
| Exit (status : Z)
| Go (token : string) (verbose : bool).

(** The scripted environment and the shared objects of the process.
    [tokenChan] lists what each non-blocking receive of a loop finds
    ([None]: no sender is waiting; the same when the script is used up);
    the four reply lists are the platform's answers to the requests of each
    kind, in order; [stdin] is the input not read yet; [knownSlugs] is the
    [sync.Map] that [main] allocates, used as a set. *)
Record World : Type := mkWorld {
  tokenChan : list (option string);
  tasksReplies : list (Reply (list Task));
  claimReplies : list (Reply unit);
  targetsReplies : list (Reply (list Target));
  signupReplies : list (Reply unit);
  stdin : string;
  knownSlugs : gset string;
  trace : list Event }.

(** ** Computations over the world *)

(** A computation returns ([Done]), waits for an answer the script does not
    hold ([Blocked]), or is a loop that has more iterations to go
    ([Running]). *)
Inductive Res (A : Type) : Type :=
| Done (a : A)
| Blocked
| Running.
Arguments Done {A} a.
Arguments Blocked {A}.
Arguments Running {A}.

Definition IO (A : Type) : Type := World -> Res A * World.

Definition ret {A : Type} (a : A) : IO A := fun w => (Done a, w).

Definition bind {A B : Type} (m : IO A) (k : A -> IO B) : IO B :=
  fun w =>
    match m w with
    | (Done a, w') => k a w'
    | (Blocked, w') => (Blocked, w')
    | (Running, w') => (Running, w')
    end.

Declare Scope io_scope.
Delimit Scope io_scope with io.
Bind Scope io_scope with IO.
Notation "x <- m ;; k" := (bind m (fun x => k))
  (at level 100, m at next level, k at level 200, right associativity) : io_scope.
Notation "m ;; k" := (bind m (fun _ => k))
  (at level 100, k at level 200, right associativity) : io_scope.
Local Open Scope io_scope.

Definition blocked {A : Type} : IO A := fun w => (Blocked, w).
Definition running {A : Type} : IO A := fun w => (Running, w).

(** Updates of one field of the world. *)
Definition logged (es : list Event) (w : World) : World :=
  mkWorld (tokenChan w) (tasksReplies w) (claimReplies w) (targetsReplies w)
    (signupReplies w) (stdin w) (knownSlugs w) (trace w ++ es).

Definition withTokenChan (c : list (option string)) (w : World) : World :=
  mkWorld c (tasksReplies w) (claimReplies w) (targetsReplies w)
    (signupReplies w) (stdin w) (knownSlugs w) (trace w).

Definition withTasksReplies (l : list (Reply (list Task))) (w : World) : World :=
  mkWorld (tokenChan w) l (claimReplies w) (targetsReplies w)
    (signupReplies w) (stdin w) (knownSlugs w) (trace w).

Definition withClaimReplies (l : list (Reply unit)) (w : World) : World :=
  mkWorld (tokenChan w) (tasksReplies w) l (targetsReplies w)
    (signupReplies w) (stdin w) (knownSlugs w) (trace w).

Definition withTargetsReplies (l : list (Reply (list Target))) (w : World) : World :=
  mkWorld (tokenChan w) (tasksReplies w) (claimReplies w) l
    (signupReplies w) (stdin w) (knownSlugs w) (trace w).

Definition withSignupReplies (l : list (Reply unit)) (w : World) : World :=
  mkWorld (tokenChan w) (tasksReplies w) (claimReplies w) (targetsReplies w)
    l (stdin w) (knownSlugs w) (trace w).

Definition withStdin (s : string) (w : World) : World :=
  mkWorld (tokenChan w) (tasksReplies w) (claimReplies w) (targetsReplies w)
    (signupReplies w) s (knownSlugs w) (trace w).

Definition withKnownSlugs (k : gset string) (w : World) : World :=
  mkWorld (tokenChan w) (tasksReplies w) (claimReplies w) (targetsReplies w)
    (signupReplies w) (stdin w) k (trace w).

Definition update (f : World -> World) : IO unit := fun w => (Done tt, f w).

Definition emit (e : Event) : IO unit := update (logged [e]).
Definition setTokenChan (c : list (option string)) : IO unit :=
  update (withTokenChan c).
Definition setTasksReplies (l : list (Reply (list Task))) : IO unit :=
  update (withTasksReplies l).
Definition setClaimReplies (l : list (Reply unit)) : IO unit :=
  update (withClaimReplies l).
Definition setTargetsReplies (l : list (Reply (list Target))) : IO unit :=
  update (withTargetsReplies l).
Definition setSignupReplies (l : list (Reply unit)) : IO unit :=
  update (withSignupReplies l).
Definition setStdin (s : string) : IO unit := update (withStdin s).
Definition setKnownSlugs (k : gset string) : IO unit := update (withKnownSlugs k).

(** [time.Sleep], [fmt.Print] and its variants, [log.Println]. *)
Definition sleep (d : Z) : IO unit := emit (Sleep d).
Definition print (msg : string) : IO unit := emit (Stdout msg).
Definition logPrintln (msg : string) : IO unit := emit (Log msg).

(** The [select] with a [default] case that opens each loop iteration: a
    receive from [tokenChan] that does not wait. *)
Definition tryRecv : IO (option string) := fun w =>
  match tokenChan w with
  | Some newToken :: c => (setTokenChan c ;; emit (ChanRecv newToken) ;; ret (Some newToken)) w
  | None :: c => (setTokenChan c ;; ret None) w
  | [] => (Done None, w)
  end.

(** [tokenChan <- newToken].  The channel is unbuffered: in the program
    the send waits until the other loop reaches its receive; the model
    records the send and goes on.  So the model tells what a loop does
    once its send has been taken, not whether or when that happens. *)
Definition send (newToken : string) : IO unit := emit (ChanSend newToken).

(** [fmt.Println]: the text and a line end, on standard output. *)
Definition newline : string := String (ascii_of_nat 10) EmptyString.
Definition println (msg : string) : IO unit := print (msg +:+ newline).

Module http.
Definition StatusOK : Z := 200.
Definition StatusCreated : Z := 201.
Definition StatusUnauthorized : Z := 401.
Definition StatusForbidden : Z := 403.
Definition StatusPreconditionFailed : Z := 412.
Definition StatusTooManyRequests : Z := 429.
End http.

(** ** The functions of mission_bot.go *)

(** [refreshToken]: prompt, read one line of standard input, trim it.
    Standard input is a terminal: the new [bufio.Reader] of each call is
    handed one line, and the lines after it stay with the terminal. *)
Definition refreshToken : IO string :=
  print ("Token expired or invalid. Please enter a new token:" +:+ newline +:+ "> ") ;;
  fun w =>
    let '(newToken, rest) := bufio.ReadString (ascii_of_nat 10) (stdin w) in
    (setStdin rest ;; emit (ReadStdin newToken) ;;
     ret (strings.TrimSpace newToken)) w.

(** [getTasks], on the replies the platform still has for this request.
    Each call takes one reply; the call on a 429 goes on with the next. *)
Fixpoint getTasksOn (token : string) (replies : list (Reply (list Task)))
  : IO (result (list Task)) :=
  match replies with
  | [] => blocked
  | r :: rest =>
      setTasksReplies rest ;;
      emit (GetTasks token r) ;;
      match r with
      | DoError msg => ret (Err msg)
      | Response StatusCode retryAfter body =>
          if StatusCode =? http.StatusOK then
            match body with
            | Decoded tasks => ret (Ok tasks)
            | DecodeError msg => ret (Err msg)
            end
          else if StatusCode =? http.StatusUnauthorized then
            ret (Err "unauthorized (401)")
          else if StatusCode =? 429 then
            (if String.eqb retryAfter EmptyString then
               println "Got 429 Too Many Requests. Sleeping 30 seconds." ;;
               sleep (time.mul 30 time.Second)
             else
               match strconv.Atoi retryAfter with
               | Some secs =>
                   print ("Got 429 Too Many Requests, waiting "
                          +:+ strconv.Itoa secs +:+ " seconds..." +:+ newline) ;;
                   sleep (time.mul (time.Duration secs) time.Second)
               | None => sleep (time.mul 30 time.Second)
               end) ;;
            getTasksOn token rest
          else
            ret (Err ("failed to retrieve tasks, status code: "
                      +:+ strconv.Itoa StatusCode))
      end
  end.

Definition getTasks (token : string) : IO (result (list Task)) :=
  fun w => getTasksOn token (tasksReplies w) w.

(** [postClaimTask]: one request, no retry. *)
Definition postClaimTask (token : string) (task : Task) : IO error :=
  fun w =>
    match claimReplies w with
    | [] => (Blocked, w)
    | r :: rest =>
        (setClaimReplies rest ;;
         emit (PostClaim token task r) ;;
         match r with
         | DoError msg => ret (Some msg)
         | Response StatusCode _ _ =>
             if StatusCode =? http.StatusCreated then
               println "Mission claimed successfully." ;;
               ret None
             else if StatusCode =? http.StatusPreconditionFailed then
               ret (Some "Mission cannot be claimed anymore (412)")
             else if StatusCode =? http.StatusUnauthorized then
               ret (Some "Unauthorized (401)")
             else if StatusCode =? http.StatusForbidden then
               ret (Some "Failed to claim task, status code: 403")
             else
               ret (Some ("Failed to claim task, status code: "
                          +:+ strconv.Itoa StatusCode))
         end) w
    end.

(** [getUnregisteredTargets], on the replies left for this request. *)
Fixpoint getUnregisteredTargetsOn (token : string)
    (replies : list (Reply (list Target))) : IO (result (list Target)) :=
  match replies with
  | [] => blocked
  | r :: rest =>
      setTargetsReplies rest ;;
      emit (GetTargets token r) ;;
      match r with
      | DoError msg => ret (Err msg)
      | Response StatusCode _ body =>
          if StatusCode =? http.StatusOK then
            match body with
            | Decoded targets => ret (Ok targets)
            | DecodeError msg => ret (Err msg)
            end
          else if StatusCode =? http.StatusUnauthorized then
            ret (Err "unauthorized (401)")
          else if StatusCode =? 429 then
            println "Got 429 Too Many Requests on targets. Sleeping 30 seconds." ;;
            sleep (time.mul 30 time.Second) ;;
            getUnregisteredTargetsOn token rest
          else
            ret (Err ("failed to retrieve unregistered targets, status code: "
                      +:+ strconv.Itoa StatusCode))
      end
  end.

Definition getUnregisteredTargets (token : string) : IO (result (list Target)) :=
  fun w => getUnregisteredTargetsOn token (targetsReplies w) w.

(** [signupTarget], on the replies left for this request. *)
Fixpoint signupTargetOn (token slug : string) (replies : list (Reply unit))
  : IO error :=
  match replies with
  | [] => blocked
  | r :: rest =>
      setSignupReplies rest ;;
      emit (PostSignup token slug r) ;;
      match r with
      | DoError msg => ret (Some msg)
      | Response StatusCode _ _ =>
          if StatusCode =? http.StatusOK then
            print ("Signed up for target " +:+ slug +:+ " successfully."
                   +:+ newline) ;;
            ret None
          else if StatusCode =? http.StatusUnauthorized then
            ret (Some "unauthorized (401)")
          else if StatusCode =? 429 then
            println "Got 429 Too Many Requests on signup. Sleeping 30 seconds." ;;
            sleep (time.mul 30 time.Second) ;;
            signupTargetOn token slug rest
          else
            ret (Some ("failed to sign up for target " +:+ slug
                       +:+ ", status code: " +:+ strconv.Itoa StatusCode))
      end
  end.

Definition signupTarget (token slug : string) : IO error :=
  fun w => signupTargetOn token slug (signupReplies w) w.

(** [knownSlugs.LoadOrStore(slug, true)]: whether the slug was there, and
    the slug is there afterwards. *)
Definition LoadOrStore (slug : string) : IO bool := fun w =>
  if bool_decide (slug ∈ knownSlugs w) then (Done true, w)
  else (setKnownSlugs ({[slug]} ∪ knownSlugs w) ;; ret false) w.

(** The [for _, t := range targets] loop of [pollUnregisteredTargets]. *)
Fixpoint signupNew (token : string) (targets : list Target) : IO unit :=
  match targets with
  | [] => ret tt
  | t :: rest =>
      loaded <- LoadOrStore (Slug t) ;;
      (if negb loaded then
         emit (CallSignup (Slug t)) ;;
         err <- signupTarget token (Slug t) ;;
         match err with
         | Some e => logPrintln e
         | None => ret tt
         end
       else ret tt) ;;
      signupNew token rest
  end.

(** [pollUnregisteredTargets], its [for] loop unrolled [fuel] times. *)
Fixpoint pollUnregisteredTargets (fuel : nat) (token : string) (verbose : bool)
  : IO unit :=
  match fuel with
  | O => running
  | S fuel' =>
      upd <- tryRecv ;;
      let token := match upd with Some newToken => newToken | None => token end in
      (if verbose then logPrintln "Checking for unregistered targets..."
       else ret tt) ;;
      res <- getUnregisteredTargets token ;;
      match res with
      | Err e =>
          if strings.Contains e "401" then
            newToken <- refreshToken ;;
            send newToken ;;
            pollUnregisteredTargets fuel' newToken verbose
          else
            logPrintln e ;;
            sleep (time.mul 5 time.Minute) ;;
            pollUnregisteredTargets fuel' token verbose
      | Ok targets =>
          signupNew token targets ;;
          sleep (time.mul 5 time.Minute) ;;
          pollUnregisteredTargets fuel' token verbose
      end
  end.

(** How one round of the [for _, task := range tasks] loop of [mainLoop]
    ends: it goes on with the next task, it leaves the loop ([break]), or
    [mainLoop] returns. *)
Inductive Flow : Type := Next | Break | Return.

(** The body of the claim loop, for one task; it gives back the local
    variables [token] and [consecutive403Count]. *)
Definition claimBody (task : Task) (token : string) (consecutive403Count : Z)
  : IO (Flow * string * Z) :=
  err <- postClaimTask token task ;;
  match err with
  | Some e =>
      if strings.Contains e "403" then
        let consecutive403Count := int64 (consecutive403Count + 1) in
        logPrintln ("Got 403. Current consecutive403Count = "
                    +:+ strconv.Itoa consecutive403Count) ;;
        if 5 <=? consecutive403Count then
          logPrintln "Received 403 five times in a row. Stopping the bot." ;;
          ret (Return, token, consecutive403Count)
        else ret (Next, token, consecutive403Count)
      else if strings.Contains e "401" then
        newToken <- refreshToken ;;
        send newToken ;;
        ret (Break, newToken, 0)
      else
        logPrintln e ;;
        ret (Next, token, consecutive403Count)
  | None =>
      print ("Claimed task " +:+ ID task +:+ " successfully." +:+ newline) ;;
      sleep (time.mul 5 time.Second) ;;
      ret (Next, token, 0)
  end.

(** The claim loop of [mainLoop] over the fetched tasks: [Next] when it
    ran to the end of the batch. *)
Fixpoint claimLoop (tasks : list Task) (token : string)
    (consecutive403Count : Z) : IO (Flow * string * Z) :=
  match tasks with
  | [] => ret (Next, token, consecutive403Count)
  | task :: rest =>
      out <- claimBody task token consecutive403Count ;;
      match out with
      | (Next, token, consecutive403Count) =>
          claimLoop rest token consecutive403Count
      | (flow, token, consecutive403Count) =>
          ret (flow, token, consecutive403Count)
      end
  end.

(** The first part of an iteration of [mainLoop]: the non-blocking receive
    of a token update, the verbose log line and the fetch.  It gives back
    the token in use and what [getTasks] returned. *)
Definition fetchPhase (token : string) (verbose : bool)
  : IO (string * result (list Task)) :=
  upd <- tryRecv ;;
  let token := match upd with Some newToken => newToken | None => token end in
  (if verbose then logPrintln "Checking for available missions..."
   else ret tt) ;;
  res <- getTasks token ;;
  ret (token, res).

(** The [for] loop of [mainLoop], unrolled [fuel] times, from given values
    of the local variables. *)
Fixpoint mainLoopFrom (fuel : nat) (token : string) (consecutive403Count : Z)
    (verbose : bool) : IO unit :=
  match fuel with
  | O => running
  | S fuel' =>
      fetched <- fetchPhase token verbose ;;
      match fetched with
      | (token, Err e) =>
          if strings.Contains e "401" then
            newToken <- refreshToken ;;
            send newToken ;;
            mainLoopFrom fuel' newToken 0 verbose
          else
            logPrintln e ;;
            sleep (time.mul 15 time.Second) ;;
            mainLoopFrom fuel' token consecutive403Count verbose
      | (token, Ok tasks) =>
          out <- claimLoop tasks token consecutive403Count ;;
          match out with
          | (Return, _, _) => ret tt
          | (_, token, consecutive403Count) =>
              sleep (time.mul 15 time.Second) ;;
              mainLoopFrom fuel' token consecutive403Count verbose
          end
      end
  end.

(** [mainLoop]: [var consecutive403Count int] starts at zero. *)
Definition mainLoop (fuel : nat) (token : string) (verbose : bool) : IO unit :=
  mainLoopFrom fuel token 0 verbose.

(** [main], after [flag.Parse]: [t] is the value given to [-t], if any
    ([flag.String] defaults to the empty string), [v] is the flag [-v].
    [fuel] unrolls [mainLoop]; the goroutine runs on its own. *)
Definition main (fuel : nat) (t : option string) (v : bool) : IO unit :=
  let tokenFlag := match t with Some s => s | None => EmptyString end in
  if String.eqb tokenFlag EmptyString then
    emit Usage ;;
    emit (Exit 1)
  else
    let token := tokenFlag in
    let verbose := v in
    setKnownSlugs ∅ ;;
    emit (Go token verbose) ;;
    mainLoop fuel token verbose.

(** The world at process start: scripts given, nothing known, no trace. *)
Definition startWorld (chan : list (option string))
    (tasks : list (Reply (list Task))) (claims : list (Reply unit))
    (targets : list (Reply (list Target))) (signups : list (Reply unit))
    (input : string) : World :=
  mkWorld chan tasks claims targets signups input ∅ [].

(** ** Notions the properties are stated with *)

(** The error that [postClaimTask] returns for a reply. *)
Definition claimError (r : Reply unit) : error :=
  match r with
  | DoError msg => Some msg
  | Response StatusCode _ _ =>
      if StatusCode =? http.StatusCreated then None
      else if StatusCode =? http.StatusPreconditionFailed then
        Some "Mission cannot be claimed anymore (412)"
      else if StatusCode =? http.StatusUnauthorized then
        Some "Unauthorized (401)"
      else if StatusCode =? http.StatusForbidden then
        Some "Failed to claim task, status code: 403"
      else
        Some ("Failed to claim task, status code: " +:+ strconv.Itoa StatusCode)
  end.

(** What [postClaimTask] prints for a reply. *)
Definition claimOutput (r : Reply unit) : list Event :=
  match claimError r with
  | None => [Stdout ("Mission claimed successfully." +:+ newline)]
  | Some _ => []
  end.

(** How the claim loop treats the reply of a claim: the tests of
    [claimBody] on the error text, in their order. *)
Inductive Outcome : Type := Claimed | Forbidden | Unauthorized | Failed.

Definition outcome (r : Reply unit) : Outcome :=
  match claimError r with
  | None => Claimed
  | Some e =>
      if strings.Contains e "403" then Forbidden
      else if strings.Contains e "401" then Unauthorized
      else Failed
  end.

(** A status code as [net/http] hands it over: three decimal digits. *)
Definition statusCode (code : Z) : Prop := 0 <= code <= 999.

(** The prompt of [refreshToken], the line it reads from a world's
    standard input, and the input left after it. *)
Definition prompt : string :=
  "Token expired or invalid. Please enter a new token:" +:+ newline +:+ "> ".

Definition nextLine (w : World) : string :=
  fst (bufio.ReadString (ascii_of_nat 10) (stdin w)).

Definition afterLine (w : World) : string :=
  snd (bufio.ReadString (ascii_of_nat 10) (stdin w)).

(** The consecutive-forbidden count that a trace stands for: a forbidden
    (403) claim response adds one; a successful claim (201) and an
    authorization failure (401, of a claim or of a fetch) set it back to
    zero; nothing else touches it. *)
Definition countStep (c : Z) (e : Event) : Z :=
  match e with
  | PostClaim _ _ (Response code _ _) =>
      if code =? 403 then c + 1
      else if (code =? 201) || (code =? 401) then 0
      else c
  | GetTasks _ (Response code _ _) => if code =? 401 then 0 else c
  | _ => c
  end.

(** The count as the specification words it: forbidden responses with no
    intervening successful claim. *)
Definition sinceSuccessStep (c : Z) (e : Event) : Z :=
  match e with
  | PostClaim _ _ (Response code _ _) =>
      if code =? 403 then c + 1
      else if code =? 201 then 0
      else c
  | _ => c
  end.

(** A left-to-right pass over a trace with a count: the count at the end,
    and whether it was 5 or more at some point. *)
Definition scan (step : Z -> Event -> Z) (st : Z * bool) (e : Event) : Z * bool :=
  let c := step (fst st) e in (c, snd st || (5 <=? c)).

Definition observed (step : Z -> Event -> Z) (tr : list Event) : Z * bool :=
  fold_left (scan step) tr (0, false).

Definition reachedFive (step : Z -> Event -> Z) (tr : list Event) : bool :=
  snd (observed step tr).

(** Replies whose error text cannot be taken for a status: a claim or a
    fetch that fails below HTTP says neither 403 nor 401 in its message,
    nor does the decoder when the body of a 200 to a fetch does not
    decode, and a response carries a three-digit status code. *)
Definition quiet (msg : string) : bool :=
  negb (strings.Contains msg "403") && negb (strings.Contains msg "401").

Definition isStatus (code : Z) : bool := (0 <=? code) && (code <=? 999).

Definition plainClaim (r : Reply unit) : bool :=
  match r with
  | DoError msg => quiet msg
  | Response code _ _ => isStatus code
  end.

Definition plainFetch (r : Reply (list Task)) : bool :=
  match r with
  | DoError msg => quiet msg
  | Response code _ (Decoded _) => isStatus code
  | Response code _ (DecodeError msg) =>
      isStatus code && (negb (code =? 200) || quiet msg)
  end.

Definition plainScript (w : World) : bool :=
  forallb plainFetch (tasksReplies w) && forallb plainClaim (claimReplies w).

(** The slugs for which [pollUnregisteredTargets] called [signupTarget],
    in the order of the calls. *)
Fixpoint signupCalls (tr : list Event) : list string :=
  match tr with
  | [] => []
  | CallSignup slug :: tr' => slug :: signupCalls tr'
  | _ :: tr' => signupCalls tr'
  end.

(** The requests of each kind that a trace holds. *)
Definition isGetTasks (e : Event) : bool :=
  match e with GetTasks _ _ => true | _ => false end.
Definition isPostClaim (e : Event) : bool :=
  match e with PostClaim _ _ _ => true | _ => false end.
Definition isPostSignup (e : Event) : bool :=
  match e with PostSignup _ _ _ => true | _ => false end.
Definition isGetTargets (e : Event) : bool :=
  match e with GetTargets _ _ => true | _ => false end.
Definition isRefresh (e : Event) : bool :=
  match e with ReadStdin _ | ChanSend _ => true | _ => false end.

(** ** Sample inputs *)

Definition mission1 : Task := mkTask "m1" "camp" "list" "org".
Definition mission2 : Task := mkTask "m2" "camp" "list" "org".
Definition status (code : Z) : Reply unit := Response code EmptyString (Decoded tt).
Definition batch (tasks : list Task) : Reply (list Task) :=
  Response 200 EmptyString (Decoded tasks).
Definition listing (slugs : list string) : Reply (list Target) :=
  Response 200 EmptyString (Decoded (map mkTarget slugs)).
Definition rateLimited {B : Type} (retryAfter : string) (b : B) : Reply B :=
  Response 429 retryAfter (Decoded b).

(** ** Notions of the proofs *)

(** The counter after a fetch: an authorization failure of the fetch sets
    it back to zero, anything else leaves it. *)
Definition fetchCount (res : Res (result (list Task))) (c : Z) : Z :=
  match res with
  | Done (Err e) => if strings.Contains e "401" then 0 else c
  | _ => c
  end.

(** What [getTasks] prints and how long it sleeps on a 429. *)
Definition backoff (retryAfter : string) : list Event :=
  if String.eqb retryAfter EmptyString then
    [Stdout ("Got 429 Too Many Requests. Sleeping 30 seconds." +:+ newline);
     Sleep (time.mul 30 time.Second)]
  else
    match strconv.Atoi retryAfter with
    | Some secs =>
        [Stdout ("Got 429 Too Many Requests, waiting " +:+ strconv.Itoa secs
                 +:+ " seconds..." +:+ newline);
         Sleep (time.mul (time.Duration secs) time.Second)]
    | None => [Sleep (time.mul 30 time.Second)]
    end.

(** The invariant of the running loop: the script is plain, the counter
    is the count of the trace, and it has stayed below five. *)
Definition Inv (c : Z) (w : World) : Prop :=
  plainScript w = true /\ observed countStep (trace w) = (c, false) /\ 0 <= c < 5.

(** The requests of one kind that a world's trace holds. *)
Definition requests (p : Event -> bool) (w : World) : nat :=
  List.length (List.filter p (trace w)).

(** [Same w w']: the step from [w] to [w'] touched neither the set nor the
    list of signup calls. *)
Definition Same (w w' : World) : Prop :=
  knownSlugs w' = knownSlugs w /\
  signupCalls (trace w') = signupCalls (trace w).

(** [Grows w w']: the set only grew, and every new signup call is for a
    slug that was not in the set before and is in it now, one call each. *)
Definition Grows (w w' : World) : Prop :=
  (knownSlugs w ⊆ knownSlugs w') /\
  exists new,
    signupCalls (trace w') = (signupCalls (trace w) ++ new) /\
    NoDup new /\
    forall s, s ∈ new -> (s ∉ knownSlugs w) /\ (s ∈ knownSlugs w').

Definition Quiet {A : Type} (m : IO A) : Prop := forall w, Same w (snd (m w)).
Definition Growing {A : Type} (m : IO A) : Prop := forall w, Grows w (snd (m w)).

Definition notCall (e : Event) : Prop :=
  match e with CallSignup _ => False | _ => True end.

(** What [signupNew] does with a slug once it is stored: the call of
    [signupTarget] and the log line for its error. *)
Definition register (token slug : string) : IO unit :=
  emit (CallSignup slug) ;;
  err <- signupTarget token slug ;;
  match err with
  | Some e => logPrintln e
  | None => ret tt
  end.

(** [Unasked w w']: between [w] and [w'] nothing was read from standard
    input and no token was sent on the channel. *)
Definition Unasked (w w' : World) : Prop :=
  stdin w' = stdin w /\
  List.filter isRefresh (trace w') = List.filter isRefresh (trace w).

Definition Unasking {A : Type} (m : IO A) : Prop :=
  forall w, Unasked w (snd (m w)).

Definition notRefresh (e : Event) : Prop := isRefresh e = false.

(** *** White space *)

(** A string from its bytes. *)
Definition fromBytes (l : list Z) : string :=
  string_of_list_ascii (map (fun b => ascii_of_N (Z.to_N b)) l).

(** The UTF-8 encodings of the runes with Unicode's [White_Space]
    property: U+0009 to U+000D, U+0020, U+0085, U+00A0, U+1680, U+2000 to
    U+200A, U+2028, U+2029, U+202F, U+205F and U+3000. *)
Definition whiteSpace : list string :=
  map fromBytes
    [[9]; [10]; [11]; [12]; [13]; [32]; [194; 133]; [194; 160];
     [225; 154; 128];
     [226; 128; 128]; [226; 128; 129]; [226; 128; 130]; [226; 128; 131];
     [226; 128; 132]; [226; 128; 133]; [226; 128; 134]; [226; 128; 135];
     [226; 128; 136]; [226; 128; 137]; [226; 128; 138];
     [226; 128; 168]; [226; 128; 169]; [226; 128; 175]; [226; 129; 159];
     [227; 128; 128]].

(** A string of white space only. *)
Inductive Blank : string -> Prop :=
| Blank_nil : Blank EmptyString
| Blank_cons ws s : In ws whiteSpace -> Blank s -> Blank (ws +:+ s).







(** ** More sample inputs *)

(** A script with four forbidden claims, an authorization failure and one
    more forbidden claim. *)
Definition refreshedWorld : World :=
  startWorld []
    [batch [mission1; mission1; mission1; mission1; mission1]; batch [mission2]]
    [status 403; status 403; status 403; status 403; status 401; status 403]
    [] [] ("fresh-token" +:+ newline).

(** Five forbidden claims in a row, the last in the middle of a batch. *)
Definition forbiddenWorld : World :=
  startWorld []
    [batch [mission1; mission1; mission1]; batch [mission1; mission1; mission2]; batch [mission2]]
    [status 403; status 403; status 403; status 403; status 403; status 201]
    [] [] EmptyString.

(** Two missions in a batch already fetched, and the replies to their
    claims. *)
Definition twoMissions (first second : Z) : World :=
  startWorld [] [] [status first; status second] [] [] EmptyString.

(** The counter at three, and a batch whose first two claims are
    forbidden: the fifth forbidden response comes with one mission left. *)
Definition midBatchWorld : World :=
  startWorld [] [batch [mission1; mission1; mission2]; batch [mission2]]
    [status 403; status 403; status 201; status 201] [] [] EmptyString.

(** Two cycles: the fetch lists a and b, then a, b and c. *)
Definition twoCycles : World :=
  startWorld [] [] [] [listing ["a"; "b"]; listing ["a"; "b"; "c"]]
    [status 200; status 500; status 200] EmptyString.

(** A target listing whose only slug is new, and the signup refused. *)
Definition refusedSignup : World :=
  startWorld [] [] [] [listing ["acme"]] [status 401] "fresh-token".

(** The target fetch refused. *)
Definition refusedListing : World :=
  startWorld [] [] [] [Response 401 EmptyString (Decoded [])] [] "fresh-token".

(** A line of input with white space around the token, and more input
    after it. *)
Definition paddedInput : World :=
  startWorld [] [] [status 401] [] []
    (fromBytes [32; 9; 226; 128; 131] +:+ "tok en" +:+ fromBytes [194; 160; 13; 10]
     +:+ "next").
(** ** Notions of the further properties *)

(** [NeverDone m]: the computation [m] does not return. *)
Definition NeverDone {A : Type} (m : IO A) : Prop :=
  forall w a, fst (m w) <> Done a.

(** [Keeps obs m]: the computation [m] leaves what [obs] reads of the
    world as it was. *)
Definition Keeps {A X : Type} (obs : World -> X) (m : IO A) : Prop :=
  forall w, obs (snd (m w)) = obs w.

(** The events of the target poller, and those of the mission poller. *)
Definition isTargetSide (e : Event) : bool :=
  match e with
  | GetTargets _ _ | CallSignup _ | PostSignup _ _ _ => true
  | _ => false
  end.

Definition isMissionSide (e : Event) : bool :=
  match e with
  | GetTasks _ _ | PostClaim _ _ _ => true
  | _ => false
  end.

(** What of the world belongs to the target poller: the set of known
    slugs, the replies to its requests, its requests; and the same for
    the mission poller. *)
Definition targetSide (w : World)
  : gset string * list (Reply (list Target)) * list (Reply unit) * list Event :=
  (knownSlugs w, targetsReplies w, signupReplies w,
   List.filter isTargetSide (trace w)).

Definition missionSide (w : World)
  : list (Reply (list Task)) * list (Reply unit) * list Event :=
  (tasksReplies w, claimReplies w, List.filter isMissionSide (trace w)).

(** The first reply of a script that is not a rate-limited (429)
    response. *)
Fixpoint settle {B : Type} (replies : list (Reply B)) : option (Reply B) :=
  match replies with
  | [] => None
  | Response 429 _ _ :: rest => settle rest
  | r :: _ => Some r
  end.

(** Three new slugs, one listed twice, and one known. *)
Definition listedTwice : World :=
  withKnownSlugs {["old"]}
    (startWorld [] [] [] [] [status 200; status 401; status 500] EmptyString).

(** The replies to the claims of a batch of three missions: the claim
    of the second is refused with 401; a token waits on standard input. *)
Definition expiredMidBatch : World :=
  startWorld [] [] [status 201; status 401; status 201] [] []
    ("fresh-token" +:+ newline).

(** A blank line on standard input, and a claim refused with 401. *)
Definition blankInput : World :=
  startWorld [] [batch [mission1]; batch [mission2]] [status 401; status 201] [] []
    (fromBytes [32; 9; 13; 10] +:+ "later").

(** The two log lines of the flag [-v], and a trace without them. *)
Definition isCheckLog (e : Event) : bool :=
  match e with
  | Log msg =>
      String.eqb msg "Checking for available missions..."
      || String.eqb msg "Checking for unregistered targets..."
  | _ => false
  end.

Definition unverbose (tr : list Event) : list Event :=
  List.filter (fun e => negb (isCheckLog e)) tr.

(** [Alike w w']: the two worlds differ in those log lines at most. *)
Definition Alike (w w' : World) : Prop :=
  tokenChan w = tokenChan w' /\
  tasksReplies w = tasksReplies w' /\
  claimReplies w = claimReplies w' /\
  targetsReplies w = targetsReplies w' /\
  signupReplies w = signupReplies w' /\
  stdin w = stdin w' /\
  knownSlugs w = knownSlugs w' /\
  unverbose (trace w) = unverbose (trace w').

(** [Akin m m']: from worlds that are alike the two computations give
    the same result and worlds that are alike. *)
Definition Akin {A : Type} (m m' : IO A) : Prop :=
  forall w w', Alike w w' ->
    fst (m w) = fst (m' w') /\ Alike (snd (m w)) (snd (m' w')).

(** The last two lines that [mainLoop] logs before it returns. *)
Definition stopLines : list Event :=
  [Log "Got 403. Current consecutive403Count = 5";
   Log "Received 403 five times in a row. Stopping the bot."].



(** * Properties *)

Lemma in_range (f : Z -> bool) :
  forallb f (map Z.of_nat (seq 0 1000)) = true ->
  forall z, 0 <= z <= 999 -> f z = true.
Proof.
  intros H z Hz.
  rewrite forallb_forall in H. apply H.
  rewrite <- (Z2Nat.id z) by lia.
  apply in_map, in_seq. lia.
Qed.

Lemma outcome_of_status code ra b :
  statusCode code ->
  outcome (Response code ra b) =
    if code =? 201 then Claimed
    else if code =? 403 then Forbidden
    else if code =? 401 then Unauthorized
    else Failed.
Proof.
  intros Hc.
  change (outcome (Response code ra b)) with (outcome (Response code EmptyString (Decoded tt))).
  pose (f := fun c => match outcome (Response c EmptyString (Decoded tt)),
                            (if c =? 201 then Claimed
    else if c =? 403 then Forbidden
    else if c =? 401 then Unauthorized
    else Failed) with
    | Claimed, Claimed | Forbidden, Forbidden | Unauthorized, Unauthorized | Failed, Failed => true
    | _, _ => false end).
  assert (Hf : f code = true).
  { apply in_range; [vm_compute; reflexivity | exact Hc]. }
  unfold f in Hf.
  destruct (outcome _), (if code =? 201 then _ else _); congruence.
Qed.

Ltac unfold_world :=
  unfold logged, withTokenChan, withTasksReplies, withClaimReplies,
    withTargetsReplies, withSignupReplies, withStdin, withKnownSlugs;
  cbn [tokenChan tasksReplies claimReplies targetsReplies signupReplies
       stdin knownSlugs trace].

Ltac world_eq :=
  unfold_world; rewrite <- ?app_assoc; cbn [app]; reflexivity.

Ltac unfold_io :=
  unfold bind, ret, blocked, running, sleep, println, print,
    logPrintln, send, setTokenChan, setTasksReplies, setClaimReplies,
    setTargetsReplies, setSignupReplies, setStdin, setKnownSlugs, emit, update.

Lemma postClaimTask_run token task w r rs :
  claimReplies w = r :: rs ->
  postClaimTask token task w =
    (Done (claimError r),
     logged (PostClaim token task r :: claimOutput r) (withClaimReplies rs w)).
Proof.
  intros H. unfold postClaimTask. rewrite H.
  unfold claimOutput, claimError.
  destruct r as [msg | code ra b]; [reflexivity|].
  unfold_io.
  repeat (destruct (_ =? _); [f_equal; world_eq|]). reflexivity.
Qed.

Lemma refreshToken_run w :
  refreshToken w =
    (Done (strings.TrimSpace (nextLine w)),
     logged [Stdout prompt; ReadStdin (nextLine w)] (withStdin (afterLine w) w)).
Proof.
  unfold refreshToken, nextLine, afterLine. unfold_io.
  cbn [stdin logged].
  destruct (bufio.ReadString _ (stdin w)) as [line rest]. cbn [fst snd].
  f_equal. world_eq.
Qed.

Lemma claimBody_claimed task token c w r rs :
  claimReplies w = r :: rs ->
  outcome r = Claimed ->
  claimBody task token c w =
    (Done (Next, token, 0),
     logged [PostClaim token task r;
             Stdout ("Mission claimed successfully." +:+ newline);
             Stdout ("Claimed task " +:+ ID task +:+ " successfully." +:+ newline);
             Sleep 5000000000]
       (withClaimReplies rs w)).
Proof.
  intros H Ho. unfold claimBody, bind at 1.
  rewrite (postClaimTask_run _ _ _ _ _ H).
  unfold outcome, claimOutput in *.
  destruct (claimError r) as [e|].
  - destruct (strings.Contains e "403"); [discriminate|].
    destruct (strings.Contains e "401"); discriminate.
  - unfold_io. f_equal. world_eq.
Qed.

Lemma claimBody_forbidden task token c w r rs :
  claimReplies w = r :: rs ->
  outcome r = Forbidden ->
  claimBody task token c w =
    let c' := int64 (c + 1) in
    if 5 <=? c' then
      (Done (Return, token, c'),
       logged [PostClaim token task r;
               Log ("Got 403. Current consecutive403Count = " +:+ strconv.Itoa c');
               Log "Received 403 five times in a row. Stopping the bot."]
         (withClaimReplies rs w))
    else
      (Done (Next, token, c'),
       logged [PostClaim token task r;
               Log ("Got 403. Current consecutive403Count = " +:+ strconv.Itoa c')]
         (withClaimReplies rs w)).
Proof.
  intros H Ho. unfold claimBody, bind at 1.
  rewrite (postClaimTask_run _ _ _ _ _ H).
  unfold outcome, claimOutput in *.
  destruct (claimError r) as [e|]; [|discriminate].
  destruct (strings.Contains e "403").
  - cbv zeta. destruct (5 <=? int64 (c + 1)); unfold_io; f_equal; world_eq.
  - destruct (strings.Contains e "401"); discriminate.
Qed.

Lemma claimBody_unauthorized task token c w r rs :
  claimReplies w = r :: rs ->
  outcome r = Unauthorized ->
  claimBody task token c w =
    (Done (Break, strings.TrimSpace (nextLine w), 0),
     logged [PostClaim token task r; Stdout prompt; ReadStdin (nextLine w);
             ChanSend (strings.TrimSpace (nextLine w))]
       (withStdin (afterLine w) (withClaimReplies rs w))).
Proof.
  intros H Ho. unfold claimBody, bind at 1.
  rewrite (postClaimTask_run _ _ _ _ _ H).
  unfold outcome, claimOutput in *.
  destruct (claimError r) as [e|]; [|discriminate].
  destruct (strings.Contains e "403"); [discriminate|].
  destruct (strings.Contains e "401"); [|discriminate].
  unfold bind at 1. rewrite refreshToken_run.
  unfold_io. f_equal. world_eq.
Qed.

Lemma claimBody_failed task token c w r rs :
  claimReplies w = r :: rs ->
  outcome r = Failed ->
  exists e, claimError r = Some e /\
  claimBody task token c w =
    (Done (Next, token, c),
     logged [PostClaim token task r; Log e] (withClaimReplies rs w)).
Proof.
  intros H Ho. unfold claimBody, bind at 1.
  rewrite (postClaimTask_run _ _ _ _ _ H).
  unfold outcome, claimOutput in *.
  destruct (claimError r) as [e|]; [|discriminate].
  exists e. split; [reflexivity|].
  destruct (strings.Contains e "403"); [discriminate|].
  destruct (strings.Contains e "401"); [discriminate|].
  unfold_io. f_equal. world_eq.
Qed.

(** *** Counting over traces *)

Lemma observed_app step tr es :
  observed step (tr ++ es) = fold_left (scan step) es (observed step tr).
Proof. unfold observed. apply fold_left_app. Qed.

Lemma scan_same c e :
  countStep c e = c -> c < 5 -> scan countStep (c, false) e = (c, false).
Proof.
  intros H Hc. unfold scan. cbn [fst snd]. rewrite H.
  destruct (Z.leb_spec 5 c); [lia | reflexivity].
Qed.

Lemma scan_to c c' e :
  countStep c e = c' -> c' < 5 -> scan countStep (c, false) e = (c', false).
Proof.
  intros H Hc. unfold scan. cbn [fst snd]. rewrite H.
  destruct (Z.leb_spec 5 c'); [lia | reflexivity].
Qed.

Lemma fetch_text_clean code :
  statusCode code -> code <> 401 ->
  strings.Contains ("failed to retrieve tasks, status code: " +:+ strconv.Itoa code) "401" = false.
Proof.
  intros Hc Hne.
  pose (f := fun c => (c =? 401) || negb (strings.Contains ("failed to retrieve tasks, status code: " +:+ strconv.Itoa c) "401")).
  assert (Hf : f code = true) by (apply in_range; [vm_compute; reflexivity | exact Hc]).
  unfold f in Hf. destruct (Z.eqb_spec code 401); [contradiction|].
  cbn in Hf. now destruct (strings.Contains _ _).
Qed.

Lemma isStatus_statusCode code : isStatus code = true <-> statusCode code.
Proof. unfold isStatus, statusCode. lia. Qed.

Lemma getTasksOn_cons token r rest w :
  getTasksOn token (r :: rest) w =
    let w1 := logged [GetTasks token r] (withTasksReplies rest w) in
    match r with
    | DoError msg => (Done (Err msg), w1)
    | Response code ra body =>
        if code =? 200 then
          match body with
          | Decoded tasks => (Done (Ok tasks), w1)
          | DecodeError msg => (Done (Err msg), w1)
          end
        else if code =? 401 then (Done (Err "unauthorized (401)"), w1)
        else if code =? 429 then getTasksOn token rest (logged (backoff ra) w1)
        else (Done (Err ("failed to retrieve tasks, status code: "
                         +:+ strconv.Itoa code)), w1)
    end.
Proof.
  cbn [getTasksOn]. unfold bind at 1 2. unfold setTasksReplies, emit, update.
  cbv zeta.
  destruct r as [msg | code ra body]; [reflexivity|].
  change http.StatusOK with 200. change http.StatusUnauthorized with 401.
  destruct (code =? 200); [destruct body; reflexivity|].
  destruct (code =? 401); [reflexivity|].
  destruct (code =? 429); [|reflexivity].
  unfold bind at 1. unfold backoff.
  destruct (String.eqb ra EmptyString).
  - unfold_io. f_equal. world_eq.
  - destruct (strconv.Atoi ra); unfold_io; f_equal; world_eq.
Qed.

Lemma fold_backoff ra c :
  c < 5 -> fold_left (scan countStep) (backoff ra) (c, false) = (c, false).
Proof.
  intros Hc. unfold backoff.
  destruct (String.eqb ra EmptyString); [|destruct (strconv.Atoi ra)];
    cbn [fold_left]; rewrite ?scan_same; auto.
Qed.

Ltac one_reply :=
  split; [reflexivity|]; split; [reflexivity|];
  split; [unfold_world; cbn [length]; lia|];
  split; [unfold_world; assumption|];
  eexists; split; [reflexivity|]; intros c Hc; cbn [fold_left fetchCount].

Lemma getTasksOn_inv token replies :
  forall w res w',
    forallb plainFetch replies = true ->
    forallb plainFetch (tasksReplies w) = true ->
    getTasksOn token replies w = (res, w') ->
    claimReplies w' = claimReplies w /\
    stdin w' = stdin w /\
    match res with
    | Done _ => (length (tasksReplies w') < length replies)%nat
    | Blocked => True
    | Running => False
    end /\
    forallb plainFetch (tasksReplies w') = true /\
    exists evs, trace w' = trace w ++ evs /\
      forall c, 0 <= c < 5 ->
        fold_left (scan countStep) evs (c, false) = (fetchCount res c, false).
Proof.
  induction replies as [|r rest IH]; intros w res w' Hp Hw H.
  - cbn in H. inversion H; subst.
    split; [reflexivity|]. split; [reflexivity|]. split; [exact I|].
    split; [assumption|].
    exists []. rewrite app_nil_r. auto.
  - cbn [forallb] in Hp. apply andb_prop in Hp as [Hr Hrest].
    rewrite getTasksOn_cons in H. cbv zeta in H.
    destruct r as [msg | code ra body].
    + inversion H; subst; clear H. one_reply.
      cbn in Hr. unfold quiet in Hr. apply andb_prop in Hr as [_ Hr].
      apply negb_true_iff in Hr. rewrite Hr. apply scan_same; [reflexivity|lia].
    + assert (Hcode : statusCode code).
      { apply isStatus_statusCode. cbn in Hr. destruct body; [exact Hr|].
        apply andb_prop in Hr as [Hr _]. exact Hr. }
      destruct (Z.eqb_spec code 200) as [->|N200].
      { destruct body as [tasks|msg]; inversion H; subst; clear H; one_reply.
        - apply scan_same; [reflexivity|lia].
        - cbn in Hr. unfold quiet in Hr. apply andb_prop in Hr as [_ Hr].
          apply negb_true_iff in Hr. rewrite Hr. apply scan_same; [reflexivity|lia]. }
      destruct (Z.eqb_spec code 401) as [->|N401].
      { inversion H; subst; clear H. one_reply.
        change (strings.Contains "unauthorized (401)" "401") with true. cbv iota.
        apply scan_to; [reflexivity|lia]. }
      destruct (Z.eqb_spec code 429) as [->|N429].
      { apply IH in H; auto.
        destruct H as (Hc1 & Hs1 & Hlen & Hpl & evs & Htr & Hfold).
        split; [exact Hc1|]. split; [exact Hs1|].
        split; [destruct res; auto; cbn [length]; lia|].
        split; [exact Hpl|].
        exists (GetTasks token (Response 429 ra body) :: backoff ra ++ evs).
        split.
        + rewrite Htr. unfold_world. rewrite <- !app_assoc. reflexivity.
        + intros c Hc. cbn [fold_left]. rewrite scan_same; [|reflexivity|lia].
          rewrite fold_left_app, fold_backoff by lia. auto. }
      inversion H; subst; clear H. one_reply.
      rewrite fetch_text_clean by auto.
      apply scan_same; [|lia].
      cbn. destruct (Z.eqb_spec code 401); [contradiction|reflexivity].
Qed.

Lemma int64_small z : - 2 ^ 63 <= z < 2 ^ 63 -> int64 z = z.
Proof. intros H. unfold int64. rewrite Z.mod_small; lia. Qed.

Lemma countStep_claim c token task r :
  plainClaim r = true ->
  countStep c (PostClaim token task r) =
    match outcome r with
    | Claimed | Unauthorized => 0
    | Forbidden => c + 1
    | Failed => c
    end.
Proof.
  intros Hp. destruct r as [msg | code ra b].
  - cbn in Hp. unfold quiet in Hp. apply andb_prop in Hp as [H3 H1].
    apply negb_true_iff in H3, H1.
    unfold outcome, claimError. rewrite H3, H1. reflexivity.
  - cbn in Hp. apply isStatus_statusCode in Hp.
    rewrite outcome_of_status by exact Hp. cbn [countStep].
    destruct (Z.eqb_spec code 403) as [->|]; [reflexivity|].
    destruct (Z.eqb_spec code 201) as [->|]; [reflexivity|].
    destruct (Z.eqb_spec code 401) as [->|]; reflexivity.
Qed.

Lemma Inv_logged c c' es w :
  Inv c w ->
  fold_left (scan countStep) es (c, false) = (c', false) ->
  0 <= c' < 5 ->
  Inv c' (logged es w).
Proof.
  intros (Hp & Ho & Hc) Hf Hc'. split; [exact Hp|]. split; [|exact Hc'].
  unfold_world. rewrite observed_app, Ho. exact Hf.
Qed.

Lemma plainScript_claims w r rs :
  plainScript w = true -> claimReplies w = r :: rs ->
  plainClaim r = true /\ plainScript (withClaimReplies rs w) = true.
Proof.
  unfold plainScript. intros H Hr. apply andb_prop in H as [Hf Hc].
  rewrite Hr in Hc. cbn [forallb] in Hc. apply andb_prop in Hc as [H1 H2].
  split; [exact H1|]. unfold_world. rewrite Hf, H2. reflexivity.
Qed.

Lemma claimBody_inv task token c w res w' :
  Inv c w ->
  claimBody task token c w = (res, w') ->
  tasksReplies w' = tasksReplies w /\
  match res with
  | Done (Return, _, c') =>
      c' = 5 /\ observed countStep (trace w') = (5, true)
  | Done (_, _, c') => Inv c' w'
  | Blocked => Inv c w'
  | Running => False
  end.
Proof.
  intros HI H. pose proof HI as (Hp & Ho & Hc).
  destruct (claimReplies w) as [|r rs] eqn:Hr.
  - unfold claimBody, bind, postClaimTask in H. rewrite Hr in H.
    inversion H; subst. split; [reflexivity|exact HI].
  - destruct (plainScript_claims _ _ _ Hp Hr) as [Hpr Hps].
    pose proof (countStep_claim c token task r Hpr) as Hstep.
    assert (HI1 : Inv c (withClaimReplies rs w)) by (split; [exact Hps|split; assumption]).
    destruct (outcome r) eqn:Hout.
    + rewrite (claimBody_claimed _ _ _ _ _ _ Hr Hout) in H.
      inversion H; subst; clear H. split; [reflexivity|].
      apply (Inv_logged c); [exact HI1| |lia].
      cbn [fold_left]. rewrite (scan_to c 0) by (auto; lia).
      rewrite !scan_same by (auto; lia). reflexivity.
    + rewrite (claimBody_forbidden _ _ _ _ _ _ Hr Hout) in H. cbv zeta in H.
      rewrite int64_small in H by lia.
      destruct (Z.leb_spec 5 (c + 1)).
      * inversion H; subst; clear H. split; [reflexivity|].
        split; [lia|]. unfold_world. rewrite observed_app, Ho.
        cbn [fold_left]. unfold scan at 3. cbn [fst snd]. rewrite Hstep.
        replace (c + 1) with 5 by lia. reflexivity.
      * inversion H; subst; clear H. split; [reflexivity|].
        apply (Inv_logged c); [exact HI1| |lia].
        cbn [fold_left]. rewrite (scan_to c (c + 1)) by (auto; lia).
        rewrite !scan_same by (auto; lia). reflexivity.
    + rewrite (claimBody_unauthorized _ _ _ _ _ _ Hr Hout) in H.
      inversion H; subst; clear H. split; [reflexivity|].
      apply (Inv_logged c); [| |lia].
      * destruct HI1 as (? & ? & ?). split; [|split]; assumption.
      * cbn [fold_left]. rewrite (scan_to c 0) by (auto; lia).
        rewrite !scan_same by (auto; lia). reflexivity.
    + destruct (claimBody_failed task token c _ _ _ Hr Hout) as (e & He & Hrun).
      rewrite Hrun in H.
      inversion H; subst; clear H. split; [reflexivity|].
      apply (Inv_logged c); [exact HI1| |lia].
      cbn [fold_left]. rewrite !scan_same by (auto; lia). reflexivity.
Qed.

Lemma claimLoop_inv tasks :
  forall token c w res w',
    Inv c w ->
    claimLoop tasks token c w = (res, w') ->
    tasksReplies w' = tasksReplies w /\
    match res with
    | Done (Return, _, c') =>
        c' = 5 /\ observed countStep (trace w') = (5, true)
    | Done (_, _, c') => Inv c' w'
    | Blocked => exists c', Inv c' w'
    | Running => False
    end.
Proof.
  induction tasks as [|task rest IH]; intros token c w res w' HI H.
  - cbn in H. inversion H; subst. split; [reflexivity|exact HI].
  - cbn [claimLoop] in H. unfold bind at 1 in H.
    destruct (claimBody task token c w) as [res1 w1] eqn:Hb.
    apply (claimBody_inv _ _ _ _ _ _ HI) in Hb as [Ht1 Hres1].
    destruct res1 as [[[flow tok1] c1]| |].
    + destruct flow.
      * apply IH in H; [|exact Hres1]. destruct H as [Ht Hres].
        split; [congruence|exact Hres].
      * inversion H; subst. split; [exact Ht1|exact Hres1].
      * inversion H; subst. split; [exact Ht1|exact Hres1].
    + inversion H; subst. split; [exact Ht1|]. exists c. exact Hres1.
    + contradiction.
Qed.

Lemma tryRecv_run w :
  exists upd es,
    tryRecv w = (Done upd, logged es (withTokenChan (tl (tokenChan w)) w)) /\
    forall c, c < 5 -> fold_left (scan countStep) es (c, false) = (c, false).
Proof.
  unfold tryRecv. destruct (tokenChan w) as [|[tok|] ch] eqn:Hch.
  - exists None, []. split; [|reflexivity].
    f_equal. destruct w; unfold_world. cbn in Hch. subst. rewrite app_nil_r. reflexivity.
  - exists (Some tok), [ChanRecv tok]. split; [unfold_io; f_equal|].
    intros c Hc. cbn [fold_left]. apply scan_same; [reflexivity|exact Hc].
  - exists None, []. split; [|reflexivity].
    unfold_io. f_equal. unfold_world. rewrite app_nil_r. reflexivity.
Qed.

Lemma fetchPhase_inv token verbose c w res w' :
  Inv c w ->
  fetchPhase token verbose w = (res, w') ->
  match res with
  | Done (_, r) =>
      (length (tasksReplies w') < length (tasksReplies w))%nat /\
      Inv (fetchCount (Done r) c) w'
  | Blocked => Inv c w'
  | Running => False
  end.
Proof.
  intros (Hp & Ho & Hc) H. unfold fetchPhase in H. unfold bind at 1 in H.
  destruct (tryRecv_run w) as (upd & es & Hrecv & Hes). rewrite Hrecv in H.
  set (tok := match upd with Some newToken => newToken | None => token end) in H.
  set (w1 := logged es (withTokenChan (tl (tokenChan w)) w)) in H.
  unfold bind at 1 in H.
  set (w2 := logged (if verbose then [Log "Checking for available missions..."] else []) w1).
  assert (Hv : (if verbose then logPrintln "Checking for available missions..." else ret tt) w1
               = (Done tt, w2)).
  { subst w2. destruct verbose; unfold_io; f_equal.
    unfold_world. rewrite app_nil_r. reflexivity. }
  rewrite Hv in H. unfold bind at 1 in H. unfold getTasks in H.
  destruct (getTasksOn tok (tasksReplies w2) w2) as [res1 w3] eqn:Hg.
  assert (Hpw : plainScript w = true) by exact Hp.
  unfold plainScript in Hp. apply andb_prop in Hp as [Hpf Hpc].
  assert (Hf2 : forallb plainFetch (tasksReplies w2) = true) by exact Hpf.
  apply getTasksOn_inv in Hg; [|exact Hf2|exact Hf2].
  destruct Hg as (Hcl & Hst & Hlen & Hpl & evs & Htr & Hfold).
  assert (Ho2 : observed countStep (trace w2) = (c, false)).
  { subst w2 w1. unfold_world. rewrite !observed_app, Ho, Hes by lia.
    destruct verbose; [|reflexivity]. cbn [fold_left].
    apply scan_same; [reflexivity|lia]. }
  assert (Hps3 : plainScript w3 = true).
  { unfold plainScript. rewrite Hpl, Hcl. exact Hpc. }
  assert (Ho3 : observed countStep (trace w3) = (fetchCount res1 c, false)).
  { rewrite Htr, observed_app, Ho2. apply Hfold. lia. }
  destruct res1 as [r| |].
  - inversion H; subst; clear H. split; [exact Hlen|].
    split; [exact Hps3|]. split; [exact Ho3|].
    cbn. destruct r; [lia|]. destruct (strings.Contains msg "401"); lia.
  - inversion H; subst; clear H.
    split; [exact Hps3|]. split; [exact Ho3|lia].
  - contradiction.
Qed.

Lemma mainLoopFrom_inv verbose fuel :
  forall token c w res w',
    Inv c w ->
    (length (tasksReplies w) < fuel)%nat ->
    mainLoopFrom fuel token c verbose w = (res, w') ->
    match res with
    | Done _ => observed countStep (trace w') = (5, true)
    | Blocked => exists c', Inv c' w'
    | Running => False
    end.
Proof.
  induction fuel as [|fuel IH]; intros token c w res w' HI Hlen H; [lia|].
  cbn [mainLoopFrom] in H. unfold bind at 1 in H.
  destruct (fetchPhase token verbose w) as [res1 w1] eqn:Hf.
  apply (fetchPhase_inv _ _ _ _ _ _ HI) in Hf.
  destruct res1 as [[tok r]| |]; [| |contradiction].
  2:{ inversion H; subst. exists c. exact Hf. }
  destruct Hf as [Hlt HI1]. cbn [fetchCount] in HI1.
  destruct r as [tasks|e].
  - unfold bind at 1 in H.
    destruct (claimLoop tasks tok c w1) as [res2 w2] eqn:Hc.
    apply (claimLoop_inv _ _ _ _ _ _ HI1) in Hc as [Ht Hres2].
    destruct res2 as [[[flow tok2] c2]| |]; [| |contradiction].
    2:{ inversion H; subst. exact Hres2. }
    destruct flow.
    + unfold bind at 1 in H. unfold sleep, emit, update in H.
      apply IH in H; [exact H| |unfold_world; rewrite ?Ht; lia].
      apply (Inv_logged c2); [exact Hres2| |destruct Hres2 as (_ & _ & ?); lia].
      cbn [fold_left]. apply scan_same; [reflexivity|destruct Hres2 as (_ & _ & ?); lia].
    + unfold bind at 1 in H. unfold sleep, emit, update in H.
      apply IH in H; [exact H| |unfold_world; rewrite ?Ht; lia].
      apply (Inv_logged c2); [exact Hres2| |destruct Hres2 as (_ & _ & ?); lia].
      cbn [fold_left]. apply scan_same; [reflexivity|destruct Hres2 as (_ & _ & ?); lia].
    + inversion H; subst. apply Hres2.
  - destruct (strings.Contains e "401").
    + unfold bind at 1 in H. rewrite refreshToken_run in H.
      unfold bind at 1 in H. unfold send, emit, update in H.
      apply IH in H; [exact H| |unfold_world; rewrite ?Ht; lia].
      destruct HI1 as (Hp1 & Ho1 & Hc1).
      split; [exact Hp1|]. split; [|lia].
      unfold_world. rewrite !observed_app, Ho1. cbn [fold_left].
      rewrite !scan_same by (auto; lia). reflexivity.
    + unfold bind at 1 in H. unfold logPrintln, emit, update in H.
      unfold bind at 1 in H. unfold sleep, emit, update in H.
      apply IH in H; [exact H| |unfold_world; rewrite ?Ht; lia].
      destruct HI1 as (Hp1 & Ho1 & Hc1).
      split; [exact Hp1|]. split; [|lia].
      unfold_world. rewrite !observed_app, Ho1. cbn [fold_left].
      rewrite !scan_same by (auto; lia). reflexivity.
Qed.

(** C1, amended.  On a plain script (every reply to a fetch or a claim is
    a response with a three-digit status code, or a failure whose text
    holds neither 403 nor 401), with fuel for more iterations than there
    are fetch replies, [mainLoop] returns exactly when the
    consecutive-forbidden count of its trace has reached five, where the
    count goes up by one on a forbidden (403) claim response and back to
    zero on a successful claim and on an authorization failure (401) of a
    claim or of a fetch; when it does not return it waits for a reply. *)
Theorem mainLoop_returns_iff_five_forbidden fuel token verbose w :
  plainScript w = true ->
  trace w = [] ->
  (length (tasksReplies w) < fuel)%nat ->
  let run := mainLoop fuel token verbose w in
  (fst run = Done tt <-> reachedFive countStep (trace (snd run)) = true) /\
  (fst run = Done tt \/ fst run = Blocked).
Proof.
  intros Hp Ht Hlen run. subst run. unfold mainLoop.
  destruct (mainLoopFrom fuel token 0 verbose w) as [res w'] eqn:H.
  apply mainLoopFrom_inv in H; [| |exact Hlen].
  2:{ split; [exact Hp|]. rewrite Ht. split; [reflexivity|lia]. }
  cbn [fst snd]. unfold reachedFive.
  destruct res as [[]| |]; [| |contradiction].
  - rewrite H. cbn. split; [tauto|left; reflexivity].
  - destruct H as (c' & _ & Ho & _). rewrite Ho. cbn.
    split; [split; discriminate|right; reflexivity].
Qed.

(** C1, the amended property on a script with five forbidden claims in a
    row. *)
Lemma mainLoop_returns_iff_five_forbidden_witness :
  fst (mainLoop 4 "tok" false forbiddenWorld) = Done tt /\
  reachedFive countStep (trace (snd (mainLoop 4 "tok" false forbiddenWorld))) = true.
Proof.
  assert (H := mainLoop_returns_iff_five_forbidden 4 "tok" false forbiddenWorld
                 eq_refl eq_refl ltac:(vm_compute; lia)).
  cbv zeta in H. destruct H as [[H1 _] _].
  assert (Hd : fst (mainLoop 4 "tok" false forbiddenWorld) = Done tt) by (vm_compute; reflexivity).
  split; [exact Hd | exact (H1 Hd)].
Defined.

(** C1, as stated, fails: four forbidden claims, an authorization failure
    and a fifth forbidden claim, no claim succeeding in between; the loop
    has not returned. *)
Lemma four_forbidden_refresh_forbidden :
  fst (mainLoop 3 "tok" false refreshedWorld) = Blocked /\
  reachedFive sinceSuccessStep (trace (snd (mainLoop 3 "tok" false refreshedWorld))) = true /\
  filter isPostClaim (trace (snd (mainLoop 3 "tok" false refreshedWorld))) =
    [PostClaim "tok" mission1 (status 403); PostClaim "tok" mission1 (status 403);
     PostClaim "tok" mission1 (status 403); PostClaim "tok" mission1 (status 403);
     PostClaim "tok" mission1 (status 401); PostClaim "fresh-token" mission2 (status 403)].
Proof. vm_compute. repeat split. Qed.

(** *** The counter and the claim outcomes *)

(** C2, as stated, fails: after a forbidden claim and a claim that got
    412 the counter is one, not zero. *)
Lemma counter_kept_after_412 :
  claimLoop [mission1; mission2] "tok" 0 (twoMissions 403 412) =
    (Done (Next, "tok", 1),
     logged
       [PostClaim "tok" mission1 (status 403);
        Log "Got 403. Current consecutive403Count = 1";
        PostClaim "tok" mission2 (status 412);
        Log "Mission cannot be claimed anymore (412)"]
       (startWorld [] [] [] [] [] EmptyString)).
Proof. vm_compute. reflexivity. Qed.

(** C2, amended.  After a claim that got a response with a three-digit
    status code, the counter is zero when the claim succeeded (201) or was
    unauthorized (401); a 412 and every other status but 403 leave it as
    it was.  A claim that fails below HTTP leaves the counter as it was
    too, when the text of its error holds neither 403 nor 401. *)
Theorem counter_after_claim task token c w r rs :
  claimReplies w = r :: rs ->
  exists flow token' c' w',
    claimBody task token c w = (Done (flow, token', c'), w') /\
    (forall code ra b,
       r = Response code ra b -> statusCode code ->
       (code = 201 \/ code = 401 -> c' = 0) /\
       (code = 412 -> c' = c) /\
       (code <> 201 -> code <> 401 -> code <> 403 -> c' = c)) /\
    (forall msg, r = DoError msg -> quiet msg = true -> c' = c).
Proof.
  intros Hr.
  assert (Hhttp : forall code ra b (P : Prop),
            r = Response code ra b -> statusCode code ->
            (forall o, outcome r = o ->
               o = (if code =? 201 then Claimed
                    else if code =? 403 then Forbidden
                    else if code =? 401 then Unauthorized
                    else Failed) -> P) -> P).
  { intros code ra b P -> Hcode HP.
    apply (HP _ eq_refl). apply outcome_of_status, Hcode. }
  assert (Hlow : forall msg, r = DoError msg -> quiet msg = true ->
                             outcome r = Failed).
  { intros msg -> Hq. unfold outcome, quiet in *. cbn [claimError].
    destruct (strings.Contains msg "403"), (strings.Contains msg "401");
      try discriminate. reflexivity. }
  destruct (outcome r) eqn:Ho.
  - rewrite (claimBody_claimed _ _ _ _ _ _ Hr Ho).
    do 4 eexists. split; [reflexivity|]. split.
    + intros code ra b E Hcode. apply (Hhttp code ra b _ E Hcode).
      intros o Ho1 Ho2. try rewrite Ho in Ho1. subst o.
      destruct (Z.eqb_spec code 201), (Z.eqb_spec code 403),
        (Z.eqb_spec code 401); try discriminate; repeat split; intros; lia.
    + intros msg E Hq. pose proof (Hlow msg E Hq) as Hf. try rewrite Ho in Hf. discriminate Hf.
  - rewrite (claimBody_forbidden _ _ _ _ _ _ Hr Ho). cbv zeta.
    destruct (5 <=? int64 (c + 1)); do 4 eexists;
      (split; [reflexivity|]); (split;
      [ intros code ra b E Hcode; apply (Hhttp code ra b _ E Hcode);
        intros o Ho1 Ho2; try rewrite Ho in Ho1; subst o;
        destruct (Z.eqb_spec code 201), (Z.eqb_spec code 403),
          (Z.eqb_spec code 401); try discriminate; repeat split; intros; lia
      | intros msg E Hq; pose proof (Hlow msg E Hq) as Hf; try rewrite Ho in Hf; discriminate Hf ]).
  - rewrite (claimBody_unauthorized _ _ _ _ _ _ Hr Ho).
    do 4 eexists. split; [reflexivity|]. split.
    + intros code ra b E Hcode. apply (Hhttp code ra b _ E Hcode).
      intros o Ho1 Ho2. try rewrite Ho in Ho1. subst o.
      destruct (Z.eqb_spec code 201), (Z.eqb_spec code 403),
        (Z.eqb_spec code 401); try discriminate; repeat split; intros; lia.
    + intros msg E Hq. pose proof (Hlow msg E Hq) as Hf. try rewrite Ho in Hf. discriminate Hf.
  - destruct (claimBody_failed task token c _ _ _ Hr Ho) as (e & _ & Hrun).
    rewrite Hrun. do 4 eexists. split; [reflexivity|]. split.
    + intros code ra b E Hcode. apply (Hhttp code ra b _ E Hcode).
      intros o Ho1 Ho2. try rewrite Ho in Ho1. subst o.
      destruct (Z.eqb_spec code 201), (Z.eqb_spec code 403),
        (Z.eqb_spec code 401); try discriminate; repeat split; intros; lia.
    + intros msg E Hq. reflexivity.
Qed.

(** C2, the amended property after a 412 with the counter at three. *)
Lemma counter_after_claim_witness :
  exists flow token' c' w',
    claimBody mission1 "tok" 3 (twoMissions 412 201) = (Done (flow, token', c'), w') /\
    (forall code ra b,
       status 412 = Response code ra b -> statusCode code ->
       (code = 201 \/ code = 401 -> c' = 0) /\
       (code = 412 -> c' = 3) /\
       (code <> 201 -> code <> 401 -> code <> 403 -> c' = 3)) /\
    (forall msg, status 412 = DoError msg -> quiet msg = true -> c' = 3).
Proof.
  apply (counter_after_claim mission1 "tok" 3 (twoMissions 412 201)
           (status 412) [status 201]).
  reflexivity.
Defined.

(** *** Precondition failed *)

(** C3, on the failing input: the mission after the one that got 412 is
    claimed in the same batch. *)
Lemma claim_after_412 :
  filter isPostClaim
    (trace (snd (claimLoop [mission1; mission2] "tok" 0 (twoMissions 412 201)))) =
    [PostClaim "tok" mission1 (status 412); PostClaim "tok" mission2 (status 201)].
Proof. vm_compute. reflexivity. Qed.

(** C3, as the code behaves: on a 412 the claim loop logs the error and
    goes on with the remaining missions of the batch, with the same token
    and the same counter; it does not return and it does not leave the
    batch. *)
Theorem precondition_failed_goes_on task rest token c w ra b rs :
  claimReplies w = Response 412 ra b :: rs ->
  let w' := logged [PostClaim token task (Response 412 ra b);
                    Log "Mission cannot be claimed anymore (412)"]
              (withClaimReplies rs w) in
  claimBody task token c w = (Done (Next, token, c), w') /\
  claimLoop (task :: rest) token c w = claimLoop rest token c w'.
Proof.
  intros Hr w'.
  assert (Ho : outcome (Response 412 ra b) = Failed) by reflexivity.
  destruct (claimBody_failed task token c _ _ _ Hr Ho) as (e & He & Hrun).
  cbn in He. inversion He; subst e; clear He.
  split; [exact Hrun|].
  cbn [claimLoop]. unfold bind at 1. rewrite Hrun. reflexivity.
Qed.

(** C3, on a batch of two missions. *)
Lemma precondition_failed_goes_on_witness :
  claimBody mission1 "tok" 2 (twoMissions 412 201) =
    (Done (Next, "tok", 2),
     logged [PostClaim "tok" mission1 (Response 412 EmptyString (Decoded tt));
             Log "Mission cannot be claimed anymore (412)"]
       (withClaimReplies [status 201] (twoMissions 412 201))) /\
  claimLoop [mission1; mission2] "tok" 2 (twoMissions 412 201) =
    claimLoop [mission2] "tok" 2
      (logged [PostClaim "tok" mission1 (Response 412 EmptyString (Decoded tt));
               Log "Mission cannot be claimed anymore (412)"]
         (withClaimReplies [status 201] (twoMissions 412 201))).
Proof.
  apply (precondition_failed_goes_on mission1 [mission2] "tok" 2
           (twoMissions 412 201) EmptyString (Decoded tt) [status 201]).
  reflexivity.
Defined.

(** *** The fifth forbidden response *)

Lemma claimLoop_app pre :
  forall tasks token c w token' c' w',
    claimLoop pre token c w = (Done (Next, token', c'), w') ->
    claimLoop (pre ++ tasks) token c w = claimLoop tasks token' c' w'.
Proof.
  induction pre as [|task pre IH]; intros tasks token c w token' c' w' H.
  - cbn in H. inversion H; subst. reflexivity.
  - cbn [app claimLoop] in *. unfold bind at 1 in H. unfold bind at 1.
    destruct (claimBody task token c w) as [[[[flow tok1] c1]| |] w1];
      try discriminate.
    destruct flow; try discriminate.
    apply IH. exact H.
Qed.

(** C9.  When the claim loop has brought the counter to four and the next
    claim of the batch is forbidden, [mainLoop] returns there: the trace
    ends with that claim and the two log lines, so no claim is made for
    the remaining missions, and no sleep and no fetch follow. *)
Theorem fifth_forbidden_returns fuel token verbose c w token1 pre task rest w1
    token2 w2 ra b rs :
  fetchPhase token verbose w = (Done (token1, Ok (pre ++ task :: rest)), w1) ->
  claimLoop pre token1 c w1 = (Done (Next, token2, 4), w2) ->
  claimReplies w2 = Response 403 ra b :: rs ->
  mainLoopFrom (S fuel) token c verbose w =
    (Done tt,
     logged [PostClaim token2 task (Response 403 ra b);
             Log "Got 403. Current consecutive403Count = 5";
             Log "Received 403 five times in a row. Stopping the bot."]
       (withClaimReplies rs w2)).
Proof.
  intros Hf Hpre Hr.
  cbn [mainLoopFrom]. unfold bind at 1. rewrite Hf.
  unfold bind at 1. rewrite (claimLoop_app _ _ _ _ _ _ _ _ Hpre).
  cbn [claimLoop]. unfold bind at 1.
  assert (Ho : outcome (Response 403 ra b) = Forbidden) by reflexivity.
  rewrite (claimBody_forbidden _ _ _ _ _ _ Hr Ho).
  reflexivity.
Qed.

(** C9, with the counter at three and a batch of three missions. *)
Lemma fifth_forbidden_returns_witness :
  mainLoopFrom 1 "tok" 3 false midBatchWorld =
    (Done tt,
     mkWorld [] [batch [mission2]] [status 201; status 201] [] [] EmptyString ∅
       [GetTasks "tok" (batch [mission1; mission1; mission2]);
        PostClaim "tok" mission1 (status 403);
        Log "Got 403. Current consecutive403Count = 4";
        PostClaim "tok" mission1 (status 403);
        Log "Got 403. Current consecutive403Count = 5";
        Log "Received 403 five times in a row. Stopping the bot."]).
Proof.
  eapply eq_trans.
  - eapply (fifth_forbidden_returns 0 "tok" false 3 midBatchWorld "tok"
              [mission1] mission1 [mission2] _ "tok" _ EmptyString (Decoded tt)
              [status 201; status 201]).
    + vm_compute. reflexivity.
    + vm_compute. reflexivity.
    + vm_compute. reflexivity.
  - vm_compute. reflexivity.
Defined.

(** *** The known slugs *)

Lemma signupCalls_app tr es :
  signupCalls (tr ++ es) = signupCalls tr ++ signupCalls es.
Proof.
  induction tr as [|e tr IH]; [reflexivity|].
  destruct e; cbn; rewrite ?IH; reflexivity.
Qed.

Lemma Same_refl w : Same w w.
Proof. split; reflexivity. Qed.

Lemma Same_trans w1 w2 w3 : Same w1 w2 -> Same w2 w3 -> Same w1 w3.
Proof. intros [H1 H2] [H3 H4]. split; congruence. Qed.

Lemma Same_Grows w w' : Same w w' -> Grows w w'.
Proof.
  intros [Hk Hc]. split; [rewrite Hk; reflexivity|].
  exists []. rewrite app_nil_r. split; [exact Hc|]. split; [constructor|].
  intros s Hs. inversion Hs.
Qed.

Lemma Grows_trans w1 w2 w3 : Grows w1 w2 -> Grows w2 w3 -> Grows w1 w3.
Proof.
  intros (Hk1 & new1 & Hc1 & Hn1 & Hin1) (Hk2 & new2 & Hc2 & Hn2 & Hin2).
  split; [set_solver|].
  exists (new1 ++ new2). split; [rewrite Hc2, Hc1, app_assoc; reflexivity|].
  split.
  - apply NoDup_app. split; [exact Hn1|]. split; [|exact Hn2].
    intros s Hs1 Hs2. apply Hin1 in Hs1. apply Hin2 in Hs2. tauto.
  - intros s Hs. apply elem_of_app in Hs as [Hs|Hs].
    + apply Hin1 in Hs. set_solver.
    + apply Hin2 in Hs. set_solver.
Qed.

Lemma Quiet_ret {A} (a : A) : Quiet (ret a).
Proof. intros w. apply Same_refl. Qed.

Lemma Quiet_blocked {A} : Quiet (@blocked A).
Proof. intros w. apply Same_refl. Qed.

Lemma Quiet_running {A} : Quiet (@running A).
Proof. intros w. apply Same_refl. Qed.

Lemma Quiet_bind {A B} (m : IO A) (k : A -> IO B) :
  Quiet m -> (forall a, Quiet (k a)) -> Quiet (bind m k).
Proof.
  intros Hm Hk w. unfold bind. specialize (Hm w).
  destruct (m w) as [[a| |] w1]; cbn [snd] in *; try exact Hm.
  eapply Same_trans; [exact Hm|apply Hk].
Qed.

Lemma Growing_bind {A B} (m : IO A) (k : A -> IO B) :
  Growing m -> (forall a, Growing (k a)) -> Growing (bind m k).
Proof.
  intros Hm Hk w. unfold bind. specialize (Hm w).
  destruct (m w) as [[a| |] w1]; cbn [snd] in *; try exact Hm.
  eapply Grows_trans; [exact Hm|apply Hk].
Qed.

Lemma Quiet_Growing {A} (m : IO A) : Quiet m -> Growing m.
Proof. intros H w. apply Same_Grows, H. Qed.

Lemma Quiet_update (f : World -> World) :
  (forall w, Same w (f w)) -> Quiet (update f).
Proof. intros H w. apply H. Qed.

Lemma Quiet_emit e : notCall e -> Quiet (emit e).
Proof.
  intros He. apply Quiet_update. intros w. split; [reflexivity|].
  unfold_world. rewrite signupCalls_app.
  destruct e; try contradiction; cbn; apply app_nil_r.
Qed.

Ltac quiet :=
  repeat first
    [ apply Quiet_ret | apply Quiet_blocked | apply Quiet_running
    | apply Quiet_bind; [|intros ?]
    | apply Quiet_emit; exact I
    | apply Quiet_update; intros ?; split; reflexivity
    | progress unfold sleep, print, println, logPrintln, send, setTokenChan,
        setTasksReplies, setClaimReplies, setTargetsReplies, setSignupReplies,
        setStdin ].

Lemma Quiet_refreshToken : Quiet refreshToken.
Proof.
  unfold refreshToken. quiet. intros w.
  destruct (bufio.ReadString _ (stdin w)) as [line rest].
  revert w. change (Quiet (setStdin rest ;; emit (ReadStdin line) ;; ret (strings.TrimSpace line))).
  quiet.
Qed.

Lemma Quiet_tryRecv : Quiet tryRecv.
Proof.
  intros w. unfold tryRecv. destruct (tokenChan w) as [|[tok|] c].
  - apply Same_refl.
  - revert w. change (Quiet (setTokenChan c ;; emit (ChanRecv tok) ;; ret (Some tok))). quiet.
  - revert w. change (Quiet (setTokenChan c ;; ret (@None string))). quiet.
Qed.

Lemma Quiet_getUnregisteredTargetsOn token replies :
  Quiet (getUnregisteredTargetsOn token replies).
Proof.
  induction replies as [|r rest IH]; cbn [getUnregisteredTargetsOn]; [quiet|].
  quiet. destruct r as [msg|code ra body]; [quiet|].
  destruct (code =? _); [destruct body; quiet|].
  destruct (code =? _); [quiet|].
  destruct (code =? _); quiet. exact IH.
Qed.

Lemma Quiet_getUnregisteredTargets token : Quiet (getUnregisteredTargets token).
Proof. intros w. apply Quiet_getUnregisteredTargetsOn. Qed.

Lemma Quiet_signupTargetOn token slug replies :
  Quiet (signupTargetOn token slug replies).
Proof.
  induction replies as [|r rest IH]; cbn [signupTargetOn]; [quiet|].
  quiet. destruct r as [msg|code ra body]; [quiet|].
  destruct (code =? _); [quiet|].
  destruct (code =? _); [quiet|].
  destruct (code =? _); quiet. exact IH.
Qed.

Lemma Quiet_signupTarget token slug : Quiet (signupTarget token slug).
Proof. intros w. apply Quiet_signupTargetOn. Qed.

Lemma LoadOrStore_known slug w :
  slug ∈ knownSlugs w -> LoadOrStore slug w = (Done true, w).
Proof.
  intros H. unfold LoadOrStore. rewrite bool_decide_eq_true_2 by exact H.
  reflexivity.
Qed.

Lemma LoadOrStore_new slug w :
  slug ∉ knownSlugs w ->
  LoadOrStore slug w =
    (Done false, withKnownSlugs ({[slug]} ∪ knownSlugs w) w).
Proof.
  intros H. unfold LoadOrStore. rewrite bool_decide_eq_false_2 by exact H.
  reflexivity.
Qed.

Lemma Quiet_afterCall token slug :
  Quiet (err <- signupTarget token slug ;;
         match err with Some e => logPrintln e | None => ret tt end).
Proof.
  apply Quiet_bind; [apply Quiet_signupTarget|]. intros [e|]; quiet.
Qed.

Lemma signupNew_known token t rest w :
  Slug t ∈ knownSlugs w ->
  signupNew token (t :: rest) w = signupNew token rest w.
Proof.
  intros H. cbn [signupNew]. unfold bind at 1.
  rewrite (LoadOrStore_known _ _ H). reflexivity.
Qed.

Lemma signupNew_new token t rest w :
  Slug t ∉ knownSlugs w ->
  signupNew token (t :: rest) w =
    (register token (Slug t) ;; signupNew token rest)
      (withKnownSlugs ({[Slug t]} ∪ knownSlugs w) w).
Proof.
  intros H. cbn [signupNew]. unfold bind at 1.
  rewrite (LoadOrStore_new _ _ H). reflexivity.
Qed.

Lemma register_Grows token slug w :
  slug ∉ knownSlugs w ->
  Grows w (snd (register token slug (withKnownSlugs ({[slug]} ∪ knownSlugs w) w))).
Proof.
  intros Hnew. unfold register. unfold bind at 1. unfold emit, update.
  set (w1 := logged [CallSignup slug] (withKnownSlugs ({[slug]} ∪ knownSlugs w) w)).
  destruct (Quiet_afterCall token slug w1) as [Hk Hc].
  split; [rewrite Hk; subst w1; unfold_world; set_solver|].
  exists [slug]. split; [|split].
  - rewrite Hc. subst w1. unfold_world. apply signupCalls_app.
  - apply NoDup_singleton.
  - intros s Hs. apply list_elem_of_singleton in Hs as ->.
    split; [exact Hnew|]. rewrite Hk. subst w1. unfold_world. set_solver.
Qed.

Lemma Growing_signupNew token targets : Growing (signupNew token targets).
Proof.
  induction targets as [|t rest IH]; intros w.
  - apply Same_Grows, Same_refl.
  - destruct (decide (Slug t ∈ knownSlugs w)) as [Hin|Hnew].
    + rewrite (signupNew_known _ _ _ _ Hin). apply IH.
    + rewrite (signupNew_new _ _ _ _ Hnew). unfold bind at 1.
      pose proof (register_Grows token (Slug t) w Hnew) as Hg.
      destruct (register token (Slug t) _) as [[[]| |] w1]; cbn [snd] in *;
        try exact Hg.
      eapply Grows_trans; [exact Hg|apply IH].
Qed.

Lemma Growing_pollUnregisteredTargets verbose fuel :
  forall token, Growing (pollUnregisteredTargets fuel token verbose).
Proof.
  induction fuel as [|fuel IH]; intros token; cbn [pollUnregisteredTargets].
  - apply Quiet_Growing. quiet.
  - apply Growing_bind; [apply Quiet_Growing, Quiet_tryRecv|]. intros upd.
    apply Growing_bind; [apply Quiet_Growing; destruct verbose; quiet|]. intros _.
    apply Growing_bind; [apply Quiet_Growing, Quiet_getUnregisteredTargets|].
    intros [targets|e].
    + apply Growing_bind; [apply Growing_signupNew|]. intros _.
      apply Growing_bind; [apply Quiet_Growing; quiet|]. intros _. apply IH.
    + destruct (strings.Contains e "401").
      * apply Growing_bind; [apply Quiet_Growing, Quiet_refreshToken|]. intros tok.
        apply Growing_bind; [apply Quiet_Growing; quiet|]. intros _. apply IH.
      * apply Growing_bind; [apply Quiet_Growing; quiet|]. intros _.
        apply Growing_bind; [apply Quiet_Growing; quiet|]. intros _. apply IH.
Qed.

Lemma Grows_skips w w' slug :
  Grows w w' -> slug ∈ knownSlugs w ->
  slug ∈ knownSlugs w' /\
  exists new, signupCalls (trace w') = signupCalls (trace w) ++ new /\ slug ∉ new.
Proof.
  intros (Hk & new & Hc & _ & Hin) Hs. split; [set_solver|].
  exists new. split; [exact Hc|]. intros Hn. apply Hin in Hn. tauto.
Qed.

(** C5.  Over any number of cycles of [pollUnregisteredTargets] from the
    start of the process, no slug gets two calls of [signupTarget]; and a
    slug that is in the set of known slugs gets none. *)
Theorem slug_registered_at_most_once :
  (forall fuel token verbose chan tasks claims targets signups input,
     NoDup (signupCalls (trace (snd
       (pollUnregisteredTargets fuel token verbose
          (startWorld chan tasks claims targets signups input)))))) /\
  (forall fuel token verbose w slug,
     slug ∈ knownSlugs w ->
     exists new,
       signupCalls (trace (snd (pollUnregisteredTargets fuel token verbose w))) =
         signupCalls (trace w) ++ new /\
       slug ∉ new).
Proof.
  split.
  - intros fuel token verbose chan tasks claims targets signups input.
    destruct (Growing_pollUnregisteredTargets verbose fuel token
                (startWorld chan tasks claims targets signups input))
      as (_ & new & Hc & Hn & _).
    rewrite Hc. exact Hn.
  - intros fuel token verbose w slug Hs.
    apply (Grows_skips w _ slug); [|exact Hs].
    apply Growing_pollUnregisteredTargets.
Qed.

(** C5, on two cycles that list the same slugs. *)
Lemma slug_registered_at_most_once_witness :
  NoDup (signupCalls (trace (snd (pollUnregisteredTargets 2 "tok" false twoCycles)))) /\
  exists new,
    signupCalls (trace (snd (pollUnregisteredTargets 1 "tok" false
      (withKnownSlugs {["a"]} twoCycles)))) =
      signupCalls (trace (withKnownSlugs {["a"]} twoCycles)) ++ new /\
    "a" ∉ new.
Proof.
  split.
  - apply (proj1 slug_registered_at_most_once).
  - apply (proj2 slug_registered_at_most_once). cbn. set_solver.
Defined.

Lemma only_c_on_second_cycle :
  signupCalls (trace (snd (pollUnregisteredTargets 1 "tok" false twoCycles))) = ["a"; "b"] /\
  signupCalls (trace (snd (pollUnregisteredTargets 2 "tok" false twoCycles))) = ["a"; "b"; "c"].
Proof. split; vm_compute; reflexivity. Qed.

(** C8.  A new slug is in the set when [signupTarget] is called for it;
    [signupTarget] takes nothing out of the set, whatever it returns; and
    a slug in the set stays there and gets no further call, on any number
    of cycles. *)
Theorem slug_stored_before_signup :
  (forall token t rest w,
     Slug t ∉ knownSlugs w ->
     signupNew token (t :: rest) w =
       (register token (Slug t) ;; signupNew token rest)
         (withKnownSlugs ({[Slug t]} ∪ knownSlugs w) w)) /\
  (forall token slug' w slug,
     slug ∈ knownSlugs w -> slug ∈ knownSlugs (snd (signupTarget token slug' w))) /\
  (forall fuel token verbose w slug,
     slug ∈ knownSlugs w ->
     slug ∈ knownSlugs (snd (pollUnregisteredTargets fuel token verbose w)) /\
     exists new,
       signupCalls (trace (snd (pollUnregisteredTargets fuel token verbose w))) =
         signupCalls (trace w) ++ new /\
       slug ∉ new).
Proof.
  split; [|split].
  - intros token t rest w H. apply signupNew_new. exact H.
  - intros token slug' w slug H.
    destruct (Quiet_signupTarget token slug' w) as [Hk _]. rewrite Hk. exact H.
  - intros fuel token verbose w slug Hs.
    apply (Grows_skips w _ slug); [|exact Hs].
    apply Growing_pollUnregisteredTargets.
Qed.

(** *** Registration after a failure *)

(** C8, on the two cycles where the signup of b fails. *)
Lemma slug_stored_before_signup_witness :
  (signupNew "tok" [mkTarget "b"] (withKnownSlugs {["a"]} twoCycles) =
     (register "tok" "b" ;; signupNew "tok" [])
       (withKnownSlugs ({["b"]} ∪ {["a"]}) (withKnownSlugs {["a"]} twoCycles))) /\
  ("b" ∈ knownSlugs (snd (signupTarget "tok" "c" (withKnownSlugs {["b"]} twoCycles)))) /\
  ("b" ∈ knownSlugs (snd (pollUnregisteredTargets 2 "tok" false
                            (withKnownSlugs {["b"]} twoCycles)))) /\
  exists new,
    (signupCalls (trace (snd (pollUnregisteredTargets 2 "tok" false
                                (withKnownSlugs {["b"]} twoCycles)))) =
       signupCalls (trace (withKnownSlugs {["b"]} twoCycles)) ++ new) /\
    ("b" ∉ new).
Proof.
  split; [|split].
  - apply (proj1 slug_stored_before_signup). cbn. set_solver.
  - apply (proj1 (proj2 slug_stored_before_signup)). cbn. set_solver.
  - apply (proj2 (proj2 slug_stored_before_signup)). cbn. set_solver.
Defined.

(** The second reply to a signup is a server error: the slug b is stored
    all the same, and the second cycle calls for c only. *)
Lemma failed_signup_not_retried :
  signupCalls (trace (snd (pollUnregisteredTargets 2 "tok" false twoCycles)))
    = ["a"; "b"; "c"] /\
  List.filter isPostSignup (trace (snd (pollUnregisteredTargets 2 "tok" false twoCycles)))
    = [PostSignup "tok" "a" (status 200); PostSignup "tok" "b" (status 500);
       PostSignup "tok" "c" (status 200)].
Proof. split; vm_compute; reflexivity. Qed.

(** *** Rate limiting *)

Lemma requests_logged p es w :
  requests p (logged es w) = (requests p w + List.length (List.filter p es))%nat.
Proof.
  unfold requests. unfold_world. rewrite List.filter_app, List.length_app. reflexivity.
Qed.

Lemma signupTargetOn_429 token slug ra b rest w :
  signupTargetOn token slug (Response 429 ra b :: rest) w =
    signupTargetOn token slug rest
      (logged [PostSignup token slug (Response 429 ra b);
               Stdout ("Got 429 Too Many Requests on signup. Sleeping 30 seconds."
                       +:+ newline);
               Sleep (time.mul 30 time.Second)]
         (withSignupReplies rest w)).
Proof.
  cbn [signupTargetOn]. unfold_io. cbn [Z.eqb Pos.eqb http.StatusOK http.StatusUnauthorized].
  f_equal. world_eq.
Qed.

Lemma getUnregisteredTargetsOn_429 token ra b rest w :
  getUnregisteredTargetsOn token (Response 429 ra b :: rest) w =
    getUnregisteredTargetsOn token rest
      (logged [GetTargets token (Response 429 ra b);
               Stdout ("Got 429 Too Many Requests on targets. Sleeping 30 seconds."
                       +:+ newline);
               Sleep (time.mul 30 time.Second)]
         (withTargetsReplies rest w)).
Proof.
  cbn [getUnregisteredTargetsOn]. unfold_io.
  cbn [Z.eqb Pos.eqb http.StatusOK http.StatusUnauthorized].
  f_equal. world_eq.
Qed.

Lemma backoff_requests p ra :
  (forall msg, p (Stdout msg) = false) -> (forall d, p (Sleep d) = false) ->
  List.filter p (backoff ra) = [].
Proof.
  intros H1 H2. unfold backoff.
  destruct (String.eqb ra EmptyString); [|destruct (strconv.Atoi ra)];
    cbn [List.filter]; rewrite ?H1, ?H2; reflexivity.
Qed.

Lemma getTasksOn_429s token ra tasks n : forall w,
  let run := getTasksOn token (repeat (rateLimited ra []) n ++ [batch tasks]) w in
  fst run = Done (Ok tasks) /\
  requests isGetTasks (snd run) = (requests isGetTasks w + S n)%nat.
Proof.
  induction n as [|n IH]; intros w; cbn [repeat app].
  - unfold batch. rewrite getTasksOn_cons. cbv zeta. cbn [Z.eqb Pos.eqb fst snd].
    split; [reflexivity|].
    rewrite requests_logged. cbn [List.filter isGetTasks List.length].
    unfold requests. unfold_world. lia.
  - cbv zeta. rewrite !getTasksOn_cons. cbv zeta.
    cbn [rateLimited Z.eqb Pos.eqb].
    match goal with |- context [getTasksOn token _ ?w1] => specialize (IH w1) end.
    cbv zeta in IH. destruct IH as [IH1 IH2]. split; [exact IH1|].
    rewrite IH2, !requests_logged, backoff_requests by reflexivity.
    cbn. unfold requests. unfold_world. lia.
Qed.

Lemma signupTargetOn_429s token slug ra n : forall w,
  let run := signupTargetOn token slug (repeat (rateLimited ra tt) n ++ [status 200]) w in
  fst run = Done None /\
  requests isPostSignup (snd run) = (requests isPostSignup w + S n)%nat.
Proof.
  induction n as [|n IH]; intros w; cbn [repeat app].
  - cbn. split; [reflexivity|]. unfold requests. cbn.
    rewrite !List.filter_app, !List.length_app. cbn. lia.
  - cbv zeta. unfold rateLimited at 1 3. rewrite !signupTargetOn_429.
    match goal with |- context [signupTargetOn token slug _ ?w1] => specialize (IH w1) end.
    cbv zeta in IH. destruct IH as [IH1 IH2]. split; [exact IH1|].
    rewrite IH2, !requests_logged.
    cbn. unfold requests. unfold_world. lia.
Qed.

Lemma getUnregisteredTargetsOn_429s token ra slugs n : forall w,
  let run := getUnregisteredTargetsOn token
               (repeat (rateLimited ra []) n ++ [listing slugs]) w in
  fst run = Done (Ok (map mkTarget slugs)) /\
  requests isGetTargets (snd run) = (requests isGetTargets w + S n)%nat.
Proof.
  induction n as [|n IH]; intros w; cbn [repeat app].
  - cbn. split; [reflexivity|]. unfold requests. cbn.
    rewrite !List.filter_app, !List.length_app. cbn. lia.
  - cbv zeta. unfold rateLimited at 1 3. rewrite !getUnregisteredTargetsOn_429.
    match goal with |- context [getUnregisteredTargetsOn token _ ?w1] => specialize (IH w1) end.
    cbv zeta in IH. destruct IH as [IH1 IH2]. split; [exact IH1|].
    rewrite IH2, !requests_logged.
    cbn. unfold requests. unfold_world. lia.
Qed.

(** C4, as the code behaves: after [n] rate-limited (429) responses in a
    row and a final answer, [getTasks], [getUnregisteredTargets] and
    [signupTarget] have each sent [n + 1] requests: every 429 is retried,
    not the first one only. *)
Theorem rate_limited_retried_every_time n token slug ra tasks slugs w :
  (let run := getTasks token
                (withTasksReplies (repeat (rateLimited ra []) n ++ [batch tasks]) w) in
   fst run = Done (Ok tasks) /\
   requests isGetTasks (snd run) = (requests isGetTasks w + S n)%nat) /\
  (let run := getUnregisteredTargets token
                (withTargetsReplies (repeat (rateLimited ra []) n ++ [listing slugs]) w) in
   fst run = Done (Ok (map mkTarget slugs)) /\
   requests isGetTargets (snd run) = (requests isGetTargets w + S n)%nat) /\
  (let run := signupTarget token slug
                (withSignupReplies (repeat (rateLimited ra tt) n ++ [status 200]) w) in
   fst run = Done None /\
   requests isPostSignup (snd run) = (requests isPostSignup w + S n)%nat).
Proof.
  split; [|split].
  - exact (getTasksOn_429s token ra tasks n (withTasksReplies _ w)).
  - exact (getUnregisteredTargetsOn_429s token ra slugs n (withTargetsReplies _ w)).
  - exact (signupTargetOn_429s token slug ra n (withSignupReplies _ w)).
Qed.

(** Two rate-limited responses in a row: three requests. *)
Lemma three_requests_after_two_429 :
  let run := getTasks "tok"
    (startWorld [] [rateLimited "7" []; rateLimited "" []; batch [mission1]]
       [] [] [] EmptyString) in
  fst run = Done (Ok [mission1]) /\
  trace (snd run) =
    [GetTasks "tok" (rateLimited "7" []);
     Stdout ("Got 429 Too Many Requests, waiting 7 seconds..." +:+ newline);
     Sleep 7000000000;
     GetTasks "tok" (rateLimited "" []);
     Stdout ("Got 429 Too Many Requests. Sleeping 30 seconds." +:+ newline);
     Sleep 30000000000;
     GetTasks "tok" (batch [mission1])].
Proof. vm_compute. split; reflexivity. Qed.

(** *** The signup that is refused *)

Lemma Unasked_refl w : Unasked w w.
Proof. split; reflexivity. Qed.

Lemma Unasked_trans w1 w2 w3 : Unasked w1 w2 -> Unasked w2 w3 -> Unasked w1 w3.
Proof. intros [H1 H2] [H3 H4]. split; congruence. Qed.

Lemma Unasking_ret {A} (a : A) : Unasking (ret a).
Proof. intros w. apply Unasked_refl. Qed.

Lemma Unasking_blocked {A} : Unasking (@blocked A).
Proof. intros w. apply Unasked_refl. Qed.

Lemma Unasking_bind {A B} (m : IO A) (k : A -> IO B) :
  Unasking m -> (forall a, Unasking (k a)) -> Unasking (bind m k).
Proof.
  intros Hm Hk w. unfold bind. specialize (Hm w).
  destruct (m w) as [[a| |] w1]; cbn [snd] in *; try exact Hm.
  eapply Unasked_trans; [exact Hm|apply Hk].
Qed.

Lemma Unasking_emit e : notRefresh e -> Unasking (emit e).
Proof.
  intros He w. split; [reflexivity|]. unfold emit, update. cbn [snd].
  unfold_world. rewrite List.filter_app. cbn [List.filter]. rewrite He.
  apply app_nil_r.
Qed.

Ltac unasking :=
  repeat first
    [ apply Unasking_ret | apply Unasking_blocked
    | apply Unasking_bind; [|intros ?]
    | apply Unasking_emit; reflexivity
    | (intros ?; split; reflexivity)
    | progress unfold sleep, print, println, logPrintln, setSignupReplies,
        setKnownSlugs, update ].

Lemma Unasking_signupTargetOn token slug replies :
  Unasking (signupTargetOn token slug replies).
Proof.
  induction replies as [|r rest IH]; cbn [signupTargetOn]; [unasking|].
  apply Unasking_bind; [unasking|]. intros _.
  apply Unasking_bind; [unasking|]. intros _.
  destruct r as [msg|code ra body]; [unasking|].
  destruct (code =? _); [unasking|].
  destruct (code =? _); [unasking|].
  destruct (code =? _); [|unasking].
  apply Unasking_bind; [unasking|]. intros _.
  apply Unasking_bind; [unasking|]. intros _. exact IH.
Qed.

Lemma Unasking_signupNew token targets : Unasking (signupNew token targets).
Proof.
  induction targets as [|t rest IH]; cbn [signupNew]; [unasking|].
  apply Unasking_bind.
  - intros w. unfold LoadOrStore. destruct (bool_decide _); [apply Unasked_refl|].
    split; reflexivity.
  - intros loaded. apply Unasking_bind; [|intros _; exact IH].
    destruct loaded; cbn [negb]; [unasking|].
    apply Unasking_bind; [unasking|]. intros _.
    apply Unasking_bind; [intros w; apply Unasking_signupTargetOn|].
    intros [e|]; unasking.
Qed.

Lemma signupNew_refused token t ra b rest w :
  Slug t ∉ knownSlugs w ->
  signupNew token [t] (withSignupReplies (Response 401 ra b :: rest) w) =
    (Done tt,
     logged [CallSignup (Slug t);
             PostSignup token (Slug t) (Response 401 ra b);
             Log "unauthorized (401)"]
       (withKnownSlugs ({[Slug t]} ∪ knownSlugs w) (withSignupReplies rest w))).
Proof.
  intros H. rewrite signupNew_new by exact H.
  unfold register, signupTarget. cbn [signupReplies withSignupReplies withKnownSlugs logged].
  unfold_io. cbn [signupTargetOn signupReplies logged]. unfold_io.
  cbn [Z.eqb Pos.eqb http.StatusOK http.StatusUnauthorized signupNew]. unfold_io.
  f_equal. world_eq.
Qed.

(** C6, as the code behaves: when the signup of a new slug is refused
    with 401, the loop over the targets logs the error and goes on;
    whatever the replies, it reads no token from standard input and sends
    none on the channel. *)
Theorem signup_unauthorized_only_logged :
  (forall token t ra b rest w,
     Slug t ∉ knownSlugs w ->
     signupNew token [t] (withSignupReplies (Response 401 ra b :: rest) w) =
       (Done tt,
        logged [CallSignup (Slug t);
                PostSignup token (Slug t) (Response 401 ra b);
                Log "unauthorized (401)"]
          (withKnownSlugs ({[Slug t]} ∪ knownSlugs w) (withSignupReplies rest w)))) /\
  (forall token targets w,
     stdin (snd (signupNew token targets w)) = stdin w /\
     List.filter isRefresh (trace (snd (signupNew token targets w))) =
       List.filter isRefresh (trace w)).
Proof.
  split.
  - intros. apply signupNew_refused. assumption.
  - intros token targets w. apply Unasking_signupNew.
Qed.

(** C6, on a listing with one new slug whose signup is refused. *)
Lemma signup_unauthorized_only_logged_witness :
  (signupNew "tok" [mkTarget "acme"]
     (withSignupReplies [status 401] (startWorld [] [] [] [] [] "fresh-token")) =
     (Done tt,
      logged [CallSignup "acme"; PostSignup "tok" "acme" (status 401);
              Log "unauthorized (401)"]
        (withKnownSlugs ({["acme"]} ∪ ∅)
           (withSignupReplies [] (startWorld [] [] [] [] [] "fresh-token"))))) /\
  (stdin (snd (signupNew "tok" [mkTarget "acme"] refusedSignup)) = "fresh-token" /\
   List.filter isRefresh (trace (snd (signupNew "tok" [mkTarget "acme"] refusedSignup)))
     = []).
Proof.
  split.
  - apply (proj1 signup_unauthorized_only_logged
             "tok" (mkTarget "acme") EmptyString (Decoded tt) []
             (startWorld [] [] [] [] [] "fresh-token")).
    cbn. set_solver.
  - apply (proj2 signup_unauthorized_only_logged "tok" [mkTarget "acme"] refusedSignup).
Defined.

(** One cycle of the target poller on the refused signup, and on the
    refused listing: only the second asks for a token. *)
Lemma refused_signup_cycle :
  let run := pollUnregisteredTargets 1 "tok" false refusedSignup in
  trace (snd run) =
    [GetTargets "tok" (listing ["acme"]);
     CallSignup "acme";
     PostSignup "tok" "acme" (status 401);
     Log "unauthorized (401)";
     Sleep 300000000000] /\
  stdin (snd run) = "fresh-token".
Proof. vm_compute. split; reflexivity. Qed.

Lemma refused_listing_cycle :
  let run := pollUnregisteredTargets 1 "tok" false refusedListing in
  trace (snd run) =
    [GetTargets "tok" (Response 401 EmptyString (Decoded []));
     Stdout prompt;
     ReadStdin "fresh-token";
     ChanSend "fresh-token"] /\
  stdin (snd run) = EmptyString.
Proof. vm_compute. split; reflexivity. Qed.

(** *** Start-up *)

(** C7.  Without the flag, or with an empty value, [main] calls
    [flag.Usage] and [os.Exit(1)] and does nothing else; with a value it
    allocates the set, starts the goroutine of [pollUnregisteredTargets]
    with that token and runs [mainLoop] with it. *)
Theorem main_requires_token :
  (forall fuel t v w,
     t = None \/ t = Some EmptyString ->
     main fuel t v w = (Done tt, logged [Usage; Exit 1] w)) /\
  (forall fuel s v w,
     s <> EmptyString ->
     main fuel (Some s) v w =
       mainLoop fuel s v (logged [Go s v] (withKnownSlugs ∅ w))).
Proof.
  split.
  - intros fuel t v w [-> | ->]; unfold main; cbn [String.eqb]; unfold_io;
      f_equal; world_eq.
  - intros fuel s v w Hs. unfold main.
    destruct (String.eqb_spec s EmptyString) as [->|_]; [contradiction|].
    unfold_io. reflexivity.
Qed.

(** C7, without the flag and with the token tok. *)
Lemma main_requires_token_witness :
  (main 3 None true (startWorld [] [] [] [] [] EmptyString) =
     (Done tt, logged [Usage; Exit 1] (startWorld [] [] [] [] [] EmptyString))) /\
  (main 3 (Some "tok") true (startWorld [] [batch []] [] [] [] EmptyString) =
     mainLoop 3 "tok" true
       (logged [Go "tok" true]
          (withKnownSlugs ∅ (startWorld [] [batch []] [] [] [] EmptyString)))).
Proof.
  split.
  - apply (proj1 main_requires_token). left. reflexivity.
  - apply (proj2 main_requires_token). discriminate.
Defined.

(** Started with a token, the first thing [main] does is to start the
    goroutine; started without, it makes no request. *)
Lemma main_with_token_run :
  trace (snd (main 1 (Some "tok") false
                (startWorld [] [batch []] [] [] [] EmptyString))) =
    [Go "tok" false; GetTasks "tok" (batch []); Sleep 15000000000] /\
  trace (snd (main 1 (Some EmptyString) false
                (startWorld [] [batch []] [] [] [] EmptyString))) = [Usage; Exit 1].
Proof. vm_compute. split; reflexivity. Qed.

(** *** White space *)

(** **** Strings as byte sequences *)



Lemma byteOf_eq c z : byteOf c = z -> c = ascii_of_N (Z.to_N z).
Proof.
  intros <-. unfold byteOf. rewrite N2Z.id. symmetry. apply ascii_N_embedding.
Qed.

Lemma append_cons c s t : String c s +:+ t = String c (s +:+ t).
Proof. reflexivity. Qed.



Lemma length_append s t :
  String.length (s +:+ t) = (String.length s + String.length t)%nat.
Proof.
  induction s as [|c s IH]; [reflexivity|]. rewrite !append_cons.
  cbn [String.length]. rewrite IH. reflexivity.
Qed.

Lemma upto_skip n s : upto n s +:+ skip n s = s.
Proof.
  revert s. induction n as [|n IH]; intros [|c s]; cbn [upto skip];
    try reflexivity.
  rewrite append_cons, IH. reflexivity.
Qed.




Lemma skip_append s t : skip (String.length s) (s +:+ t) = t.
Proof.
  induction s as [|c s IH]; [destruct t; reflexivity|].
  rewrite append_cons. exact IH.
Qed.




Lemma In_eqb x (l : list string) : existsb (String.eqb x) l = true -> In x l.
Proof.
  intros H. apply existsb_exists in H as (y & Hy & He).
  apply String.eqb_eq in He. subst. exact Hy.
Qed.

Lemma whiteSpace_nonempty ws : In ws whiteSpace -> ws <> EmptyString.
Proof.
  intros H ->. vm_compute in H.
  repeat (destruct H as [H|H]; [discriminate|]). exact H.
Qed.



(** **** Decoding a white space rune *)































Lemma skip_upto n s : skip n s = skip n (upto n s +:+ skip n s).
Proof. rewrite upto_skip. reflexivity. Qed.




Lemma ReadString_split delim input :
  fst (bufio.ReadString delim input) +:+ snd (bufio.ReadString delim input) = input.
Proof.
  induction input as [|c rest IH]; [reflexivity|]. cbn [bufio.ReadString].
  destruct (Ascii.eqb c delim); [reflexivity|].
  destruct (bufio.ReadString delim rest) as [line rest']. cbn [fst snd] in *.
  rewrite append_cons, IH. reflexivity.
Qed.



(** On that input the token is the text between the white space. *)
Lemma padded_token :
  fst (refreshToken paddedInput) = Done "tok en" /\
  stdin (snd (refreshToken paddedInput)) = "next".
Proof. vm_compute. split; reflexivity. Qed.

(** * Further properties *)

(** *** The two loops *)

Lemma NeverDone_running {A} : NeverDone (@running A).
Proof. intros w a. discriminate. Qed.

Lemma NeverDone_bind {A B} (m : IO A) (k : A -> IO B) :
  (forall a, NeverDone (k a)) -> NeverDone (bind m k).
Proof.
  intros Hk w b. unfold bind.
  destruct (m w) as [[a| |] w1]; cbn [fst]; try discriminate. apply Hk.
Qed.

Lemma NeverDone_pollUnregisteredTargets fuel :
  forall token verbose, NeverDone (pollUnregisteredTargets fuel token verbose).
Proof.
  induction fuel as [|fuel IH]; intros token verbose;
    cbn [pollUnregisteredTargets]; [apply NeverDone_running|].
  apply NeverDone_bind. intros upd.
  apply NeverDone_bind. intros _.
  apply NeverDone_bind. intros [targets|e].
  - apply NeverDone_bind. intros _. apply NeverDone_bind. intros _. apply IH.
  - destruct (strings.Contains e "401").
    + apply NeverDone_bind. intros tok. apply NeverDone_bind. intros _. apply IH.
    + apply NeverDone_bind. intros _. apply NeverDone_bind. intros _. apply IH.
Qed.

Lemma Keeps_ret {A X} (obs : World -> X) (a : A) : Keeps obs (ret a).
Proof. intros w. reflexivity. Qed.

Lemma Keeps_blocked {A X} (obs : World -> X) : Keeps obs (@blocked A).
Proof. intros w. reflexivity. Qed.

Lemma Keeps_running {A X} (obs : World -> X) : Keeps obs (@running A).
Proof. intros w. reflexivity. Qed.

Lemma Keeps_bind {A B X} (obs : World -> X) (m : IO A) (k : A -> IO B) :
  Keeps obs m -> (forall a, Keeps obs (k a)) -> Keeps obs (bind m k).
Proof.
  intros Hm Hk w. unfold bind. specialize (Hm w).
  destruct (m w) as [[a| |] w1]; cbn [snd] in *; try exact Hm.
  rewrite Hk. exact Hm.
Qed.

Lemma Keeps_update {X} (obs : World -> X) (f : World -> World) :
  (forall w, obs (f w) = obs w) -> Keeps obs (update f).
Proof. intros H w. apply H. Qed.

Lemma targetSide_logged e w :
  isTargetSide e = false -> targetSide (logged [e] w) = targetSide w.
Proof.
  intros He. unfold targetSide, logged.
  cbn [knownSlugs targetsReplies signupReplies trace].
  rewrite List.filter_app. cbn [List.filter]. rewrite He, app_nil_r. reflexivity.
Qed.

Lemma missionSide_logged e w :
  isMissionSide e = false -> missionSide (logged [e] w) = missionSide w.
Proof.
  intros He. unfold missionSide, logged.
  cbn [tasksReplies claimReplies trace].
  rewrite List.filter_app. cbn [List.filter]. rewrite He, app_nil_r. reflexivity.
Qed.

Ltac keeps :=
  repeat first
    [ apply Keeps_ret | apply Keeps_blocked | apply Keeps_running
    | apply Keeps_bind; [|intros ?]
    | apply Keeps_update; intros ?;
      first [ reflexivity
            | apply targetSide_logged; reflexivity
            | apply missionSide_logged; reflexivity ]
    | progress unfold sleep, print, println, logPrintln, send, emit, setTokenChan,
        setTasksReplies, setClaimReplies, setTargetsReplies, setSignupReplies,
        setStdin, setKnownSlugs ].

Lemma Keeps_refreshToken {X} (obs : World -> X) :
  (forall e w, isTargetSide e = false -> isMissionSide e = false ->
               obs (logged [e] w) = obs w) ->
  (forall s w, obs (withStdin s w) = obs w) ->
  Keeps obs refreshToken.
Proof.
  intros He Hs. unfold refreshToken.
  apply Keeps_bind; [apply Keeps_update; intros w; apply He; reflexivity|].
  intros _ w. destruct (bufio.ReadString _ (stdin w)) as [line rest].
  revert w.
  change (Keeps obs (setStdin rest ;; emit (ReadStdin line) ;;
                     ret (strings.TrimSpace line))).
  apply Keeps_bind; [apply Keeps_update; intros w; apply Hs|]. intros _.
  apply Keeps_bind; [apply Keeps_update; intros w; apply He; reflexivity|].
  intros _. apply Keeps_ret.
Qed.

Lemma Keeps_tryRecv {X} (obs : World -> X) :
  (forall e w, isTargetSide e = false -> isMissionSide e = false ->
               obs (logged [e] w) = obs w) ->
  (forall c w, obs (withTokenChan c w) = obs w) ->
  Keeps obs tryRecv.
Proof.
  intros He Hc w. unfold tryRecv. destruct (tokenChan w) as [|[tok|] c].
  - reflexivity.
  - revert w.
    change (Keeps obs (setTokenChan c ;; emit (ChanRecv tok) ;; ret (Some tok))).
    apply Keeps_bind; [apply Keeps_update; intros w; apply Hc|]. intros _.
    apply Keeps_bind; [apply Keeps_update; intros w; apply He; reflexivity|].
    intros _. apply Keeps_ret.
  - revert w. change (Keeps obs (setTokenChan c ;; ret (@None string))).
    apply Keeps_bind; [apply Keeps_update; intros w; apply Hc|]. intros _.
    apply Keeps_ret.
Qed.

Lemma targetSide_event e w :
  isTargetSide e = false -> isMissionSide e = false ->
  targetSide (logged [e] w) = targetSide w.
Proof. intros H _. apply targetSide_logged, H. Qed.

Lemma missionSide_event e w :
  isTargetSide e = false -> isMissionSide e = false ->
  missionSide (logged [e] w) = missionSide w.
Proof. intros _ H. apply missionSide_logged, H. Qed.

Lemma Keeps_getTasksOn token replies : Keeps targetSide (getTasksOn token replies).
Proof.
  induction replies as [|r rest IH]; cbn [getTasksOn]; [keeps|].
  apply Keeps_bind; [keeps|]. intros _. apply Keeps_bind; [keeps|]. intros _.
  destruct r as [msg|code ra body]; [keeps|].
  destruct (code =? _); [destruct body; keeps|].
  destruct (code =? _); [keeps|].
  destruct (code =? _); [|keeps].
  apply Keeps_bind; [|intros _; exact IH].
  destruct (String.eqb ra EmptyString); [keeps|].
  destruct (strconv.Atoi ra); keeps.
Qed.

Lemma Keeps_postClaimTask token task : Keeps targetSide (postClaimTask token task).
Proof.
  intros w. unfold postClaimTask. destruct (claimReplies w) as [|r rest]; [reflexivity|].
  revert w.
  match goal with |- forall w, targetSide (snd (?m w)) = _ => change (Keeps targetSide m) end.
  apply Keeps_bind; [keeps|]. intros _. apply Keeps_bind; [keeps|]. intros _.
  destruct r as [msg|code ra body]; [keeps|].
  repeat (destruct (code =? _); [keeps|]). keeps.
Qed.

Lemma Keeps_claimBody task token c : Keeps targetSide (claimBody task token c).
Proof.
  unfold claimBody. apply Keeps_bind; [apply Keeps_postClaimTask|].
  intros [e|]; [|keeps].
  destruct (strings.Contains e "403").
  - cbv zeta. apply Keeps_bind; [keeps|]. intros _.
    destruct (5 <=? _); keeps.
  - destruct (strings.Contains e "401"); [|keeps].
    apply Keeps_bind; [|intros ?; keeps].
    apply Keeps_refreshToken; [apply targetSide_event|reflexivity].
Qed.

Lemma Keeps_claimLoop tasks : forall token c, Keeps targetSide (claimLoop tasks token c).
Proof.
  induction tasks as [|task rest IH]; intros token c; cbn [claimLoop]; [keeps|].
  apply Keeps_bind; [apply Keeps_claimBody|].
  intros [[[] tok] c']; first [apply IH | keeps].
Qed.

Lemma Keeps_mainLoopFrom fuel :
  forall token c verbose, Keeps targetSide (mainLoopFrom fuel token c verbose).
Proof.
  induction fuel as [|fuel IH]; intros token c verbose; cbn [mainLoopFrom]; [keeps|].
  apply Keeps_bind.
  - unfold fetchPhase.
    apply Keeps_bind; [apply Keeps_tryRecv; [apply targetSide_event|reflexivity]|].
    intros upd. apply Keeps_bind; [destruct verbose; keeps|]. intros _.
    apply Keeps_bind; [intros w; apply Keeps_getTasksOn|]. intros res. keeps.
  - intros [tok [tasks|e]].
    + apply Keeps_bind; [apply Keeps_claimLoop|].
      intros [[[] tok'] c']; first [apply Keeps_ret | idtac];
        (apply Keeps_bind; [keeps|]; intros _; apply IH).
    + destruct (strings.Contains e "401").
      * apply Keeps_bind;
          [apply Keeps_refreshToken; [apply targetSide_event|reflexivity]|].
        intros tok'. apply Keeps_bind; [keeps|]. intros _. apply IH.
      * apply Keeps_bind; [keeps|]. intros _.
        apply Keeps_bind; [keeps|]. intros _. apply IH.
Qed.

Lemma Keeps_getUnregisteredTargetsOn token replies :
  Keeps missionSide (getUnregisteredTargetsOn token replies).
Proof.
  induction replies as [|r rest IH]; cbn [getUnregisteredTargetsOn]; [keeps|].
  apply Keeps_bind; [keeps|]. intros _. apply Keeps_bind; [keeps|]. intros _.
  destruct r as [msg|code ra body]; [keeps|].
  destruct (code =? _); [destruct body; keeps|].
  destruct (code =? _); [keeps|].
  destruct (code =? _); [|keeps].
  apply Keeps_bind; [keeps|]. intros _.
  apply Keeps_bind; [keeps|]. intros _. exact IH.
Qed.

Lemma Keeps_signupTargetOn token slug replies :
  Keeps missionSide (signupTargetOn token slug replies).
Proof.
  induction replies as [|r rest IH]; cbn [signupTargetOn]; [keeps|].
  apply Keeps_bind; [keeps|]. intros _. apply Keeps_bind; [keeps|]. intros _.
  destruct r as [msg|code ra body]; [keeps|].
  destruct (code =? _); [keeps|].
  destruct (code =? _); [keeps|].
  destruct (code =? _); [|keeps].
  apply Keeps_bind; [keeps|]. intros _.
  apply Keeps_bind; [keeps|]. intros _. exact IH.
Qed.

Lemma Keeps_signupNew token targets : Keeps missionSide (signupNew token targets).
Proof.
  induction targets as [|t rest IH]; cbn [signupNew]; [keeps|].
  apply Keeps_bind.
  - intros w. unfold LoadOrStore. destruct (bool_decide _); reflexivity.
  - intros loaded. apply Keeps_bind; [|intros _; exact IH].
    destruct loaded; cbn [negb]; [keeps|].
    apply Keeps_bind; [keeps|]. intros _.
    apply Keeps_bind; [intros w; apply Keeps_signupTargetOn|].
    intros [e|]; keeps.
Qed.

Lemma Keeps_pollUnregisteredTargets fuel :
  forall token verbose,
    Keeps missionSide (pollUnregisteredTargets fuel token verbose).
Proof.
  induction fuel as [|fuel IH]; intros token verbose;
    cbn [pollUnregisteredTargets]; [keeps|].
  apply Keeps_bind; [apply Keeps_tryRecv; [apply missionSide_event|reflexivity]|].
  intros upd. apply Keeps_bind; [destruct verbose; keeps|]. intros _.
  apply Keeps_bind; [intros w; apply Keeps_getUnregisteredTargetsOn|].
  intros [targets|e].
  - apply Keeps_bind; [apply Keeps_signupNew|]. intros _.
    apply Keeps_bind; [keeps|]. intros _. apply IH.
  - destruct (strings.Contains e "401").
    + apply Keeps_bind;
        [apply Keeps_refreshToken; [apply missionSide_event|reflexivity]|].
      intros tok'. apply Keeps_bind; [keeps|]. intros _. apply IH.
    + apply Keeps_bind; [keeps|]. intros _.
      apply Keeps_bind; [keeps|]. intros _. apply IH.
Qed.

(** X1.  The target poller has no way out: however many rounds of its loop
    run, [pollUnregisteredTargets] has not returned; it is in its loop or
    waits for a reply. *)
Theorem pollUnregisteredTargets_never_returns fuel token verbose w :
  fst (pollUnregisteredTargets fuel token verbose w) = Running \/
  fst (pollUnregisteredTargets fuel token verbose w) = Blocked.
Proof.
  pose proof (NeverDone_pollUnregisteredTargets fuel token verbose w) as H.
  destruct (fst (pollUnregisteredTargets fuel token verbose w)) as [[]| |];
    [exfalso; apply (H tt); reflexivity|right; reflexivity|left; reflexivity].
Qed.

(** X2.  [mainLoop] keeps out of the target poller's business: it leaves the
    set of known slugs as it is, takes no reply meant for a target fetch
    or a signup, and sends no such request. *)
Theorem mainLoop_leaves_targets fuel token verbose w :
  let w' := snd (mainLoop fuel token verbose w) in
  knownSlugs w' = knownSlugs w /\
  targetsReplies w' = targetsReplies w /\
  signupReplies w' = signupReplies w /\
  List.filter isTargetSide (trace w') = List.filter isTargetSide (trace w).
Proof.
  pose proof (Keeps_mainLoopFrom fuel token 0 verbose w) as H.
  unfold targetSide in H. inversion H. cbv zeta. unfold mainLoop. auto.
Qed.

(** X3.  [pollUnregisteredTargets] keeps out of the mission poller's business:
    it takes no reply meant for a task fetch or a claim and sends no such
    request. *)
Theorem pollUnregisteredTargets_leaves_missions fuel token verbose w :
  let w' := snd (pollUnregisteredTargets fuel token verbose w) in
  tasksReplies w' = tasksReplies w /\
  claimReplies w' = claimReplies w /\
  List.filter isMissionSide (trace w') = List.filter isMissionSide (trace w).
Proof.
  pose proof (Keeps_pollUnregisteredTargets fuel token verbose w) as H.
  unfold missionSide in H. inversion H. cbv zeta. auto.
Qed.

(** *** A cycle of the target poller *)

Lemma register_run token slug w res w' :
  register token slug w = (res, w') ->
  knownSlugs w' = knownSlugs w /\
  signupCalls (trace w') = signupCalls (trace w) ++ [slug].
Proof.
  unfold register. unfold bind at 1. unfold emit, update.
  intros H.
  pose proof (Quiet_afterCall token slug (logged [CallSignup slug] w)) as [Hk Hc].
  rewrite H in Hk, Hc. cbn [snd] in Hk, Hc. split; [exact Hk|].
  rewrite Hc. unfold_world. apply signupCalls_app.
Qed.

Lemma signupNew_exact token targets : forall w,
  fst (signupNew token targets w) = Done tt ->
  exists new,
    signupCalls (trace (snd (signupNew token targets w))) =
      signupCalls (trace w) ++ new /\
    NoDup new /\
    (forall s, s ∈ new <-> (s ∈ map Slug targets) /\ (s ∉ knownSlugs w)) /\
    knownSlugs (snd (signupNew token targets w)) =
      knownSlugs w ∪ list_to_set (map Slug targets).
Proof.
  induction targets as [|t rest IH]; intros w Hd.
  - exists []. cbn. rewrite app_nil_r. split; [reflexivity|].
    split; [constructor|]. split; [set_solver|set_solver].
  - destruct (decide (Slug t ∈ knownSlugs w)) as [Hin|Hnew].
    + rewrite (signupNew_known _ _ _ _ Hin) in *.
      destruct (IH w Hd) as (new & Hc & Hn & Hm & Hk).
      exists new. split; [exact Hc|]. split; [exact Hn|].
      split; [|cbn [map list_to_set]; set_solver].
      intros s. rewrite Hm. cbn [map]. set_solver.
    + rewrite (signupNew_new _ _ _ _ Hnew) in *. unfold bind at 1 in Hd.
      unfold bind at 1 2.
      destruct (register token (Slug t) _) as [res w1] eqn:Hr.
      apply register_run in Hr as [Hk1 Hc1].
      destruct res as [[]| |]; try discriminate.
      destruct (IH w1 Hd) as (new & Hc & Hn & Hm & Hk).
      cbn [knownSlugs withKnownSlugs trace] in Hk1, Hc1.
      exists (Slug t :: new). split; [|split; [|split]].
      * rewrite Hc, Hc1, <- app_assoc. reflexivity.
      * constructor; [|exact Hn]. rewrite Hm, Hk1. set_solver.
      * intros s. rewrite elem_of_cons, Hm, Hk1. cbn [map].
        rewrite elem_of_cons.
        destruct (decide (s = Slug t)) as [->|Hne]; set_solver.
      * rewrite Hk, Hk1. cbn [map list_to_set]. set_solver.
Qed.

(** X4.  The loop over a listing, when it gets to the end: the calls of
    [signupTarget] it made are for the listed slugs that were not known,
    each once, and all the listed slugs are known afterwards. *)
Theorem signupNew_registers_every_new_slug token targets w :
  fst (signupNew token targets w) = Done tt ->
  exists new,
    signupCalls (trace (snd (signupNew token targets w))) =
      signupCalls (trace w) ++ new /\
    NoDup new /\
    (forall s, s ∈ new <-> (s ∈ map Slug targets) /\ (s ∉ knownSlugs w)) /\
    knownSlugs (snd (signupNew token targets w)) =
      knownSlugs w ∪ list_to_set (map Slug targets).
Proof. apply signupNew_exact. Qed.

(** X4, on a sample script. *)
Lemma signupNew_registers_every_new_slug_witness :
  exists new,
    signupCalls (trace (snd (signupNew "tok"
       (map mkTarget ["a"; "old"; "b"; "a"; "c"]) listedTwice))) =
      signupCalls (trace listedTwice) ++ new /\
    NoDup new /\
    (forall s, s ∈ new <->
       (s ∈ map Slug (map mkTarget ["a"; "old"; "b"; "a"; "c"])) /\
       (s ∉ knownSlugs listedTwice)) /\
    knownSlugs (snd (signupNew "tok"
       (map mkTarget ["a"; "old"; "b"; "a"; "c"]) listedTwice)) =
      knownSlugs listedTwice ∪
      list_to_set (map Slug (map mkTarget ["a"; "old"; "b"; "a"; "c"])).
Proof.
  apply (signupNew_registers_every_new_slug "tok"
           (map mkTarget ["a"; "old"; "b"; "a"; "c"]) listedTwice).
  vm_compute. reflexivity.
Defined.

(** On that listing the calls are for a, b and c, in this order. *)
Lemma listedTwice_calls :
  signupCalls (trace (snd (signupNew "tok"
     (map mkTarget ["a"; "old"; "b"; "a"; "c"]) listedTwice))) = ["a"; "b"; "c"].
Proof. vm_compute. reflexivity. Qed.

(** *** The task fetch *)

Lemma settle_cons {B} (r : Reply B) rest :
  settle (r :: rest) =
    match r with
    | Response code _ _ => if code =? 429 then settle rest else Some r
    | DoError _ => Some r
    end.
Proof.
  destruct r as [msg|code ra b]; [reflexivity|].
  destruct (Z.eqb_spec code 429) as [->|Hne]; [reflexivity|].
  cbn [settle].
  destruct code as [|p|p]; try reflexivity.
  repeat (destruct p as [p|p|]; try reflexivity). contradiction.
Qed.

Lemma getTasksOn_settles token replies : forall w,
  (forall tasks,
     fst (getTasksOn token replies w) = Done (Ok tasks) <->
     exists ra, settle replies = Some (Response 200 ra (Decoded tasks))) /\
  (fst (getTasksOn token replies w) = Blocked <-> settle replies = None) /\
  fst (getTasksOn token replies w) <> Running.
Proof.
  induction replies as [|r rest IH]; intros w.
  - cbn. split; [|split; [tauto|discriminate]].
    intros tasks. split; [discriminate|intros [ra H]; discriminate].
  - rewrite getTasksOn_cons, settle_cons. cbv zeta.
    destruct r as [msg|code ra body].
    { cbn [fst]. split; [|split; [split; discriminate|discriminate]].
      intros tasks. split; [discriminate|intros [ra H]; discriminate]. }
    destruct (Z.eqb_spec code 200) as [->|N200].
    { cbn [Z.eqb Pos.eqb]. destruct body as [ts|msg]; cbn [fst];
        (split; [|split; [split; discriminate|discriminate]]); intros tasks.
      - split; [intros H; inversion H; eauto|intros [ra' H]; inversion H; reflexivity].
      - split; [discriminate|intros [ra' H]; discriminate]. }
    destruct (Z.eqb_spec code 401) as [->|N401].
    { cbn [Z.eqb Pos.eqb fst]. split; [|split; [split; discriminate|discriminate]].
      intros tasks. split; [discriminate|intros [ra' H]; inversion H]. }
    destruct (Z.eqb_spec code 429) as [->|N429]; [apply IH|].
    cbn [fst]. split; [|split; [split; discriminate|discriminate]].
    intros tasks. split; [discriminate|intros [ra' H]; inversion H; congruence].
Qed.

(** X5.  [getTasks] goes past every rate-limited (429) reply: it returns the
    missions exactly when the first reply that is not a 429 is a 200 with
    a body that decodes, and it is still waiting exactly when every reply
    was a 429. *)
Theorem getTasks_settles token w :
  (forall tasks,
     fst (getTasks token w) = Done (Ok tasks) <->
     exists ra, settle (tasksReplies w) = Some (Response 200 ra (Decoded tasks))) /\
  (fst (getTasks token w) = Blocked <-> settle (tasksReplies w) = None).
Proof.
  destruct (getTasksOn_settles token (tasksReplies w) w) as (H1 & H2 & _).
  split; assumption.
Qed.

(** *** The claim that is refused *)



(** On that script the third mission of the batch gets no claim. *)
Lemma expiredMidBatch_claims :
  List.filter isPostClaim
    (trace (snd (claimLoop [mission1; mission2; mission1] "tok" 2 expiredMidBatch))) =
    [PostClaim "tok" mission1 (status 201);
     PostClaim "tok" mission2 (status 401)].
Proof. vm_compute. reflexivity. Qed.

(** *** The claim that fails otherwise *)

Lemma claimError_other code ra b :
  code <> 201 -> code <> 412 -> code <> 401 -> code <> 403 ->
  claimError (Response code ra b) =
    Some ("Failed to claim task, status code: " +:+ strconv.Itoa code).
Proof.
  intros H1 H2 H3 H4. unfold claimError.
  change http.StatusCreated with 201.
  change http.StatusPreconditionFailed with 412.
  change http.StatusUnauthorized with 401.
  change http.StatusForbidden with 403.
  rewrite (proj2 (Z.eqb_neq code 201)), (proj2 (Z.eqb_neq code 412)),
    (proj2 (Z.eqb_neq code 401)), (proj2 (Z.eqb_neq code 403)) by assumption.
  reflexivity.
Qed.

(** X7.  A claim whose call of [client.Do] comes back with a status other
    than 201, 412, 401 and 403, a rate-limited (429) one among them, is
    not made again: after that one call the loop logs the status and goes
    on with the next mission, without a wait, without a second call for
    the mission, with the token and the counter as they were. *)
Theorem failed_claim_not_retried task rest token c w code ra b rs :
  statusCode code ->
  code <> 201 -> code <> 412 -> code <> 401 -> code <> 403 ->
  claimReplies w = Response code ra b :: rs ->
  claimLoop (task :: rest) token c w =
    claimLoop rest token c
      (logged [PostClaim token task (Response code ra b);
               Log ("Failed to claim task, status code: " +:+ strconv.Itoa code)]
         (withClaimReplies rs w)).
Proof.
  intros Hc H1 H2 H3 H4 Hr.
  assert (Ho : outcome (Response code ra b) = Failed).
  { rewrite (outcome_of_status code ra b Hc).
    rewrite (proj2 (Z.eqb_neq code 201)), (proj2 (Z.eqb_neq code 403)),
      (proj2 (Z.eqb_neq code 401)) by assumption.
    reflexivity. }
  destruct (claimBody_failed task token c _ _ _ Hr Ho) as (e & He & Hrun).
  rewrite claimError_other in He by assumption. inversion He; subst e.
  cbn [claimLoop]. unfold bind at 1. rewrite Hrun. reflexivity.
Qed.

(** X7, on a sample script. *)
Lemma failed_claim_not_retried_witness :
  claimLoop [mission1; mission2] "tok" 3 (twoMissions 429 201) =
    claimLoop [mission2] "tok" 3
      (logged [PostClaim "tok" mission1 (Response 429 EmptyString (Decoded tt));
               Log ("Failed to claim task, status code: " +:+ strconv.Itoa 429)]
         (withClaimReplies [status 201] (twoMissions 429 201))).
Proof.
  apply (failed_claim_not_retried mission1 [mission2] "tok" 3 (twoMissions 429 201)
           429 EmptyString (Decoded tt) [status 201]).
  - unfold statusCode. lia.
  - lia.
  - lia.
  - lia.
  - lia.
  - reflexivity.
Defined.

(** *** The wait of the task fetch *)

Lemma int64_wrap z : 2 ^ 63 <= z < 2 ^ 63 + 2 ^ 64 -> int64 z = z - 2 ^ 64.
Proof.
  intros H. unfold int64.
  rewrite <- (Z.mod_unique (z + 2 ^ 63) (2 ^ 64) 1 (z + 2 ^ 63 - 2 ^ 64)); lia.
Qed.

Lemma seconds_small secs :
  - 9223372036 <= secs <= 9223372036 ->
  time.mul (time.Duration secs) time.Second = secs * 1000000000.
Proof.
  intros H. unfold time.mul, time.Duration, time.Second.
  rewrite (int64_small secs) by lia. apply int64_small. lia.
Qed.

Lemma seconds_wrap secs :
  9223372037 <= secs <= 18446744073 ->
  time.mul (time.Duration secs) time.Second = secs * 1000000000 - 2 ^ 64.
Proof.
  intros H. unfold time.mul, time.Duration, time.Second.
  rewrite (int64_small secs) by lia. apply int64_wrap. lia.
Qed.

(** X8.  How long [getTasks] waits on a 429 before it asks again.  Without a
    [Retry-After] header: 30 seconds, announced.  With a header that
    [strconv.Atoi] reads as [secs]: [secs] seconds, announced, as long as
    [secs] seconds fit a [time.Duration]; from 9223372037 seconds on the
    product wraps to a negative duration, which is no wait at all.  With
    any other header: 30 seconds, in silence. *)
Theorem retry_after_wait token ra b rest w :
  let w1 := logged [GetTasks token (Response 429 ra b)] (withTasksReplies rest w) in
  let again := getTasksOn token rest in
  (ra = EmptyString ->
   getTasksOn token (Response 429 ra b :: rest) w =
     again (logged [Stdout ("Got 429 Too Many Requests. Sleeping 30 seconds."
                            +:+ newline);
                    Sleep 30000000000] w1)) /\
  (forall secs,
     ra <> EmptyString -> strconv.Atoi ra = Some secs ->
     exists d,
       getTasksOn token (Response 429 ra b :: rest) w =
         again (logged [Stdout ("Got 429 Too Many Requests, waiting "
                                +:+ strconv.Itoa secs +:+ " seconds..." +:+ newline);
                        Sleep d] w1) /\
       (- 9223372036 <= secs <= 9223372036 -> d = secs * 1000000000) /\
       (9223372037 <= secs <= 18446744073 -> d = secs * 1000000000 - 2 ^ 64 /\ d < 0)) /\
  (ra <> EmptyString -> strconv.Atoi ra = None ->
   getTasksOn token (Response 429 ra b :: rest) w =
     again (logged [Sleep 30000000000] w1)).
Proof.
  cbv zeta. rewrite getTasksOn_cons. cbv zeta. cbn [Z.eqb Pos.eqb].
  unfold backoff. split; [|split].
  - intros ->. reflexivity.
  - intros secs Hne Ha. apply String.eqb_neq in Hne. rewrite Hne, Ha.
    eexists. split; [reflexivity|]. split.
    + intros H. apply seconds_small, H.
    + intros H. rewrite (seconds_wrap secs H). lia.
  - intros Hne Ha. apply String.eqb_neq in Hne. rewrite Hne, Ha. reflexivity.
Qed.

(** X8, on a sample script. *)
Lemma retry_after_wait_witness :
  (exists d,
     getTasksOn "tok" [Response 429 "120" (Decoded []); batch []]
         (startWorld [] [] [] [] [] EmptyString) =
       getTasksOn "tok" [batch []]
         (logged [Stdout ("Got 429 Too Many Requests, waiting "
                          +:+ strconv.Itoa 120 +:+ " seconds..." +:+ newline);
                  Sleep d]
            (logged [GetTasks "tok" (Response 429 "120" (Decoded []))]
               (withTasksReplies [batch []] (startWorld [] [] [] [] [] EmptyString)))) /\
     (- 9223372036 <= 120 <= 9223372036 -> d = 120 * 1000000000) /\
     (9223372037 <= 120 <= 18446744073 -> d = 120 * 1000000000 - 2 ^ 64 /\ d < 0)) /\
  getTasksOn "tok" [Response 429 "Wed, 21 Oct 2026 07:28:00 GMT" (Decoded []); batch []]
      (startWorld [] [] [] [] [] EmptyString) =
    getTasksOn "tok" [batch []]
      (logged [Sleep 30000000000]
         (logged [GetTasks "tok"
                    (Response 429 "Wed, 21 Oct 2026 07:28:00 GMT" (Decoded []))]
            (withTasksReplies [batch []] (startWorld [] [] [] [] [] EmptyString)))).
Proof.
  split.
  - apply (proj1 (proj2 (retry_after_wait "tok" "120" (Decoded []) [batch []]
                           (startWorld [] [] [] [] [] EmptyString))) 120).
    + discriminate.
    + vm_compute. reflexivity.
  - apply (proj2 (proj2 (retry_after_wait "tok" "Wed, 21 Oct 2026 07:28:00 GMT"
                           (Decoded []) [batch []]
                           (startWorld [] [] [] [] [] EmptyString)))).
    + discriminate.
    + vm_compute. reflexivity.
Defined.

(** A [Retry-After] of 9223372037 seconds: the duration is negative. *)
Lemma retry_after_overflow :
  List.filter (fun e => match e with Sleep _ => true | _ => false end)
    (trace (snd (getTasks "tok"
       (startWorld [] [Response 429 "9223372037" (Decoded []); batch []]
          [] [] [] EmptyString)))) = [Sleep (-9223372036709551616)].
Proof. vm_compute. reflexivity. Qed.

(** *** The blank line *)

Lemma decode_whiteSpace ws rest :
  In ws whiteSpace ->
  snd (utf8.DecodeRuneInString (ws +:+ rest)) = String.length ws /\
  unicode.IsSpace (fst (utf8.DecodeRuneInString (ws +:+ rest))) = true.
Proof.
  intros H. cbv [whiteSpace map fromBytes string_of_list_ascii] in H.
  cbn [In] in H.
  repeat (destruct H as [<-|H]; [vm_compute; split; reflexivity|]).
  contradiction.
Qed.

Lemma trimLeft_more fuel : forall s,
  strings.trimLeft fuel unicode.IsSpace s = EmptyString ->
  strings.trimLeft (S fuel) unicode.IsSpace s = EmptyString.
Proof.
  induction fuel as [|fuel IH]; intros s H.
  - cbn in H. subst. reflexivity.
  - cbn [strings.trimLeft] in *. destruct s as [|c s']; [reflexivity|].
    destruct (utf8.DecodeRuneInString (String c s')) as [r size].
    destruct (unicode.IsSpace r); [|exact H].
    apply IH in H. exact H.
Qed.

Lemma trimLeft_Blank s :
  Blank s ->
  forall fuel, (String.length s <= fuel)%nat ->
  strings.trimLeft fuel unicode.IsSpace s = EmptyString.
Proof.
  induction 1 as [|ws s Hw Hb IH]; intros fuel Hn.
  - destruct fuel; reflexivity.
  - pose proof (whiteSpace_nonempty ws Hw) as Hne.
    rewrite length_append in Hn.
    destruct ws as [|c ws']; [congruence|]. set (x := String c ws') in *.
    assert (Hx : (1 <= String.length x)%nat) by (cbn; lia).
    destruct fuel as [|fuel]; [lia|].
    cbn [strings.trimLeft]. unfold x at 1. rewrite append_cons. fold x.
    change (String c (ws' +:+ s)) with (x +:+ s).
    destruct (decode_whiteSpace x s Hw) as [Hsz Hsp].
    destruct (utf8.DecodeRuneInString (x +:+ s)) as [r size].
    cbn [fst snd] in Hsz, Hsp. subst size. rewrite Hsp, skip_append.
    apply IH. lia.
Qed.

Lemma TrimSpace_Blank s : Blank s -> strings.TrimSpace s = EmptyString.
Proof.
  intros H. unfold strings.TrimSpace, strings.TrimFunc, strings.TrimLeftFunc.
  rewrite (trimLeft_Blank s H) by lia. reflexivity.
Qed.

(** X9.  When the line that [refreshToken] reads is blank (white space only,
    or nothing at all at the end of the input) the new token is the empty
    string; the claim loop adopts it and sends it on like any other: the
    test of [main] for an empty token is not made again. *)
Theorem blank_line_gives_empty_token :
  (forall w, Blank (nextLine w) -> fst (refreshToken w) = Done EmptyString) /\
  (forall w, stdin w = EmptyString -> fst (refreshToken w) = Done EmptyString) /\
  (forall task old c w r rs,
     claimReplies w = r :: rs ->
     outcome r = Unauthorized ->
     Blank (nextLine w) ->
     fst (claimBody task old c w) = Done (Break, EmptyString, 0) /\
     In (ChanSend EmptyString) (trace (snd (claimBody task old c w)))).
Proof.
  split; [|split].
  - intros w H. rewrite refreshToken_run. cbn [fst].
    rewrite (TrimSpace_Blank _ H). reflexivity.
  - intros w H. rewrite refreshToken_run. cbn [fst].
    unfold nextLine. rewrite H. reflexivity.
  - intros task old c w r rs Hr Ho Hb.
    rewrite (claimBody_unauthorized _ _ _ _ _ _ Hr Ho). cbn [fst snd].
    rewrite (TrimSpace_Blank _ Hb). split; [reflexivity|].
    unfold_world. apply in_or_app. right. cbn. auto.
Qed.

Lemma blankInput_line : Blank (nextLine blankInput).
Proof.
  change (nextLine blankInput) with (fromBytes [32; 9; 13; 10]).
  change (fromBytes [32; 9; 13; 10])
    with (fromBytes [32] +:+ fromBytes [9] +:+ fromBytes [13] +:+ fromBytes [10]
          +:+ EmptyString).
  repeat (apply Blank_cons; [apply In_eqb; vm_compute; reflexivity|]).
  constructor.
Qed.

(** X9, on a sample script. *)
Lemma blank_line_gives_empty_token_witness :
  fst (refreshToken blankInput) = Done EmptyString /\
  fst (refreshToken (startWorld [] [] [] [] [] EmptyString)) = Done EmptyString /\
  fst (claimBody mission1 "old" 2 blankInput) = Done (Break, EmptyString, 0) /\
  In (ChanSend EmptyString) (trace (snd (claimBody mission1 "old" 2 blankInput))).
Proof.
  split; [|split].
  - apply (proj1 blank_line_gives_empty_token blankInput). apply blankInput_line.
  - apply (proj1 (proj2 blank_line_gives_empty_token)). reflexivity.
  - apply (proj2 (proj2 blank_line_gives_empty_token)
             mission1 "old" 2 blankInput (status 401) [status 201]).
    + reflexivity.
    + vm_compute. reflexivity.
    + apply blankInput_line.
Defined.

(** After the blank line [mainLoop] fetches and claims with the empty
    token. *)
Lemma blankInput_requests :
  List.filter isMissionSide (trace (snd (mainLoop 2 "old" false blankInput))) =
    [GetTasks "old" (batch [mission1]);
     PostClaim "old" mission1 (status 401);
     GetTasks EmptyString (batch [mission2]);
     PostClaim EmptyString mission2 (status 201)].
Proof. vm_compute. reflexivity. Qed.

(** *** The flag -v *)

Lemma Alike_refl w : Alike w w.
Proof. repeat split. Qed.

Ltac alike H :=
  destruct H as (?&?&?&?&?&?&?&?);
  repeat split; unfold_world; unfold unverbose in *;
  rewrite ?List.filter_app; try congruence.

Lemma Akin_ret {A} (a : A) : Akin (ret a) (ret a).
Proof. intros w w' H. split; [reflexivity|exact H]. Qed.

Lemma Akin_blocked {A} : Akin (@blocked A) (@blocked A).
Proof. intros w w' H. split; [reflexivity|exact H]. Qed.

Lemma Akin_running {A} : Akin (@running A) (@running A).
Proof. intros w w' H. split; [reflexivity|exact H]. Qed.

Lemma Akin_bind {A B} (m m' : IO A) (k k' : A -> IO B) :
  Akin m m' -> (forall a, Akin (k a) (k' a)) -> Akin (bind m k) (bind m' k').
Proof.
  intros Hm Hk w w' H. unfold bind. destruct (Hm w w' H) as [Hr Hw].
  destruct (m w) as [r1 w1], (m' w') as [r2 w2]. cbn [fst snd] in *. subst r2.
  destruct r1 as [a| |]; [apply Hk; exact Hw| |]; split; [reflexivity|exact Hw|reflexivity|exact Hw].
Qed.

Lemma Akin_update (f : World -> World) :
  (forall w w', Alike w w' -> Alike (f w) (f w')) -> Akin (update f) (update f).
Proof. intros Hf w w' H. split; [reflexivity|apply Hf, H]. Qed.

Lemma Alike_logged es w w' : Alike w w' -> Alike (logged es w) (logged es w').
Proof. intros H. alike H. Qed.

Lemma Akin_emit e : Akin (emit e) (emit e).
Proof. apply Akin_update. intros w w'. apply Alike_logged. Qed.

Lemma Akin_check msg :
  isCheckLog (Log msg) = true -> Akin (logPrintln msg) (ret tt).
Proof.
  intros Hm w w' H. split; [reflexivity|].
  unfold logPrintln, emit, update, ret. cbn [snd].
  destruct H as (?&?&?&?&?&?&?&Ht).
  repeat split; unfold_world; try assumption.
  unfold unverbose in *. rewrite List.filter_app. cbn [List.filter].
  rewrite Hm. cbn [negb]. rewrite app_nil_r. exact Ht.
Qed.

Ltac akin :=
  repeat first
    [ apply Akin_ret | apply Akin_blocked | apply Akin_running
    | apply Akin_emit
    | apply Akin_bind; [|intros ?]
    | apply Akin_update; let H := fresh "H" in intros ? ? H; alike H
    | progress unfold sleep, print, println, logPrintln, send, setTokenChan,
        setTasksReplies, setClaimReplies, setTargetsReplies, setSignupReplies,
        setStdin, setKnownSlugs ].

Lemma Akin_tryRecv : Akin tryRecv tryRecv.
Proof.
  intros w w' H. unfold tryRecv.
  assert (Hc : tokenChan w = tokenChan w') by apply H. rewrite <- Hc.
  destruct (tokenChan w) as [|[tok|] c].
  - split; [reflexivity|exact H].
  - revert w w' H Hc.
    assert (Hk : Akin (setTokenChan c ;; emit (ChanRecv tok) ;; ret (Some tok))
                      (setTokenChan c ;; emit (ChanRecv tok) ;; ret (Some tok)))
      by akin.
    intros w w' H _. apply Hk, H.
  - revert w w' H Hc.
    assert (Hk : Akin (setTokenChan c ;; ret (@None string))
                      (setTokenChan c ;; ret (@None string))) by akin.
    intros w w' H _. apply Hk, H.
Qed.

Lemma Akin_refreshToken : Akin refreshToken refreshToken.
Proof.
  unfold refreshToken. apply Akin_bind; [akin|]. intros _ w w' H.
  assert (Hs : stdin w = stdin w') by apply H. rewrite <- Hs.
  destruct (bufio.ReadString _ (stdin w)) as [line rest].
  assert (Hk : Akin (setStdin rest ;; emit (ReadStdin line) ;;
                     ret (strings.TrimSpace line))
                    (setStdin rest ;; emit (ReadStdin line) ;;
                     ret (strings.TrimSpace line))) by akin.
  apply Hk, H.
Qed.

Lemma Akin_getTasksOn token replies :
  Akin (getTasksOn token replies) (getTasksOn token replies).
Proof.
  induction replies as [|r rest IH]; cbn [getTasksOn]; [akin|].
  apply Akin_bind; [akin|]. intros _. apply Akin_bind; [akin|]. intros _.
  destruct r as [msg|code ra body]; [akin|].
  destruct (code =? _); [destruct body; akin|].
  destruct (code =? _); [akin|].
  destruct (code =? _); [|akin].
  apply Akin_bind; [|intros _; exact IH].
  destruct (String.eqb ra EmptyString); [akin|].
  destruct (strconv.Atoi ra); akin.
Qed.

Lemma Akin_getTasks token : Akin (getTasks token) (getTasks token).
Proof.
  intros w w' H. unfold getTasks.
  assert (Hr : tasksReplies w = tasksReplies w') by apply H. rewrite <- Hr.
  apply Akin_getTasksOn, H.
Qed.

Lemma Akin_postClaimTask token task :
  Akin (postClaimTask token task) (postClaimTask token task).
Proof.
  intros w w' H. unfold postClaimTask.
  assert (Hr : claimReplies w = claimReplies w') by apply H. rewrite <- Hr.
  destruct (claimReplies w) as [|r rest]; [split; [reflexivity|exact H]|].
  revert w w' H Hr.
  match goal with
  | |- forall w w', _ -> _ -> (?m w).1 = _ /\ _ =>
      assert (Hk : Akin m m)
  end.
  { apply Akin_bind; [akin|]. intros _. apply Akin_bind; [akin|]. intros _.
    destruct r as [msg|code ra body]; [akin|].
    repeat (destruct (code =? _); [akin|]). akin. }
  intros w w' H _. apply Hk, H.
Qed.

Lemma Akin_claimBody task token c :
  Akin (claimBody task token c) (claimBody task token c).
Proof.
  unfold claimBody. apply Akin_bind; [apply Akin_postClaimTask|].
  intros [e|]; [|akin].
  destruct (strings.Contains e "403").
  - cbv zeta. apply Akin_bind; [akin|]. intros _. destruct (5 <=? _); akin.
  - destruct (strings.Contains e "401"); [|akin].
    apply Akin_bind; [apply Akin_refreshToken|]. intros ?. akin.
Qed.

Lemma Akin_claimLoop tasks :
  forall token c, Akin (claimLoop tasks token c) (claimLoop tasks token c).
Proof.
  induction tasks as [|task rest IH]; intros token c; cbn [claimLoop]; [akin|].
  apply Akin_bind; [apply Akin_claimBody|].
  intros [[[] tok] c']; first [apply IH | akin].
Qed.

Lemma Akin_mainLoopFrom fuel :
  forall token c, Akin (mainLoopFrom fuel token c true) (mainLoopFrom fuel token c false).
Proof.
  induction fuel as [|fuel IH]; intros token c; cbn [mainLoopFrom]; [akin|].
  apply Akin_bind.
  - unfold fetchPhase. apply Akin_bind; [apply Akin_tryRecv|]. intros upd.
    apply Akin_bind; [apply Akin_check; reflexivity|]. intros _.
    apply Akin_bind; [apply Akin_getTasks|]. intros res. akin.
  - intros [tok [tasks|e]].
    + apply Akin_bind; [apply Akin_claimLoop|].
      intros [[[] tok'] c']; first [apply Akin_ret | idtac];
        (apply Akin_bind; [akin|]; intros _; apply IH).
    + destruct (strings.Contains e "401").
      * apply Akin_bind; [apply Akin_refreshToken|]. intros tok'.
        apply Akin_bind; [akin|]. intros _. apply IH.
      * apply Akin_bind; [akin|]. intros _.
        apply Akin_bind; [akin|]. intros _. apply IH.
Qed.

Lemma Akin_getUnregisteredTargetsOn token replies :
  Akin (getUnregisteredTargetsOn token replies)
       (getUnregisteredTargetsOn token replies).
Proof.
  induction replies as [|r rest IH]; cbn [getUnregisteredTargetsOn]; [akin|].
  apply Akin_bind; [akin|]. intros _. apply Akin_bind; [akin|]. intros _.
  destruct r as [msg|code ra body]; [akin|].
  destruct (code =? _); [destruct body; akin|].
  destruct (code =? _); [akin|].
  destruct (code =? _); [|akin].
  apply Akin_bind; [akin|]. intros _.
  apply Akin_bind; [akin|]. intros _. exact IH.
Qed.

Lemma Akin_getUnregisteredTargets token :
  Akin (getUnregisteredTargets token) (getUnregisteredTargets token).
Proof.
  intros w w' H. unfold getUnregisteredTargets.
  assert (Hr : targetsReplies w = targetsReplies w') by apply H. rewrite <- Hr.
  apply Akin_getUnregisteredTargetsOn, H.
Qed.

Lemma Akin_signupTargetOn token slug replies :
  Akin (signupTargetOn token slug replies) (signupTargetOn token slug replies).
Proof.
  induction replies as [|r rest IH]; cbn [signupTargetOn]; [akin|].
  apply Akin_bind; [akin|]. intros _. apply Akin_bind; [akin|]. intros _.
  destruct r as [msg|code ra body]; [akin|].
  destruct (code =? _); [akin|].
  destruct (code =? _); [akin|].
  destruct (code =? _); [|akin].
  apply Akin_bind; [akin|]. intros _.
  apply Akin_bind; [akin|]. intros _. exact IH.
Qed.

Lemma Akin_signupTarget token slug :
  Akin (signupTarget token slug) (signupTarget token slug).
Proof.
  intros w w' H. unfold signupTarget.
  assert (Hr : signupReplies w = signupReplies w') by apply H. rewrite <- Hr.
  apply Akin_signupTargetOn, H.
Qed.

Lemma Akin_LoadOrStore slug : Akin (LoadOrStore slug) (LoadOrStore slug).
Proof.
  intros w w' H. unfold LoadOrStore.
  assert (Hk : knownSlugs w = knownSlugs w') by apply H. rewrite <- Hk.
  destruct (bool_decide _); [split; [reflexivity|exact H]|].
  unfold bind, setKnownSlugs, update, ret. cbn [fst snd].
  split; [reflexivity|]. alike H.
Qed.

Lemma Akin_signupNew token targets :
  Akin (signupNew token targets) (signupNew token targets).
Proof.
  induction targets as [|t rest IH]; cbn [signupNew]; [akin|].
  apply Akin_bind; [apply Akin_LoadOrStore|]. intros loaded.
  apply Akin_bind; [|intros _; exact IH].
  destruct loaded; cbn [negb]; [akin|].
  apply Akin_bind; [akin|]. intros _.
  apply Akin_bind; [apply Akin_signupTarget|]. intros [e|]; akin.
Qed.

Lemma Akin_pollUnregisteredTargets fuel :
  forall token,
    Akin (pollUnregisteredTargets fuel token true)
         (pollUnregisteredTargets fuel token false).
Proof.
  induction fuel as [|fuel IH]; intros token; cbn [pollUnregisteredTargets]; [akin|].
  apply Akin_bind; [apply Akin_tryRecv|]. intros upd.
  apply Akin_bind; [apply Akin_check; reflexivity|]. intros _.
  apply Akin_bind; [apply Akin_getUnregisteredTargets|]. intros [targets|e].
  - apply Akin_bind; [apply Akin_signupNew|]. intros _.
    apply Akin_bind; [akin|]. intros _. apply IH.
  - destruct (strings.Contains e "401").
    + apply Akin_bind; [apply Akin_refreshToken|]. intros tok'.
      apply Akin_bind; [akin|]. intros _. apply IH.
    + apply Akin_bind; [akin|]. intros _.
      apply Akin_bind; [akin|]. intros _. apply IH.
Qed.

(** X10.  The flag [-v] adds its two log lines and changes nothing else: with
    and without it, on the same script, each loop ends the same way,
    leaves the same replies, input and known slugs, and has the same
    trace once the lines of the flag are taken out. *)
Theorem verbose_only_logs fuel token w :
  (fst (mainLoop fuel token true w) = fst (mainLoop fuel token false w) /\
   Alike (snd (mainLoop fuel token true w)) (snd (mainLoop fuel token false w))) /\
  (fst (pollUnregisteredTargets fuel token true w) =
     fst (pollUnregisteredTargets fuel token false w) /\
   Alike (snd (pollUnregisteredTargets fuel token true w))
         (snd (pollUnregisteredTargets fuel token false w))).
Proof.
  split.
  - apply Akin_mainLoopFrom, Alike_refl.
  - apply Akin_pollUnregisteredTargets, Alike_refl.
Qed.

(** One iteration of [mainLoop] on a batch of one mission, with the flag:
    the line of the flag comes first. *)
Lemma verbose_iteration :
  trace (snd (mainLoop 1 "tok" true
                (startWorld [] [batch [mission1]] [status 201] [] [] EmptyString))) =
    Log "Checking for available missions..." ::
    trace (snd (mainLoop 1 "tok" false
                  (startWorld [] [batch [mission1]] [status 201] [] [] EmptyString))).
Proof. vm_compute. reflexivity. Qed.

(** *** The way out of mainLoop *)

Lemma claimBody_stop task token c w flow tok c' w' :
  0 <= c < 5 ->
  claimBody task token c w = (Done (flow, tok, c'), w') ->
  match flow with
  | Return => exists tr, trace w' = tr ++ stopLines
  | _ => 0 <= c' < 5
  end.
Proof.
  intros Hc H.
  destruct (claimReplies w) as [|r rs] eqn:Hr.
  { unfold claimBody, bind, postClaimTask in H. rewrite Hr in H. discriminate. }
  destruct (outcome r) eqn:Ho.
  - rewrite (claimBody_claimed _ _ _ _ _ _ Hr Ho) in H. inversion H; subst. lia.
  - rewrite (claimBody_forbidden _ _ _ _ _ _ Hr Ho) in H. cbv zeta in H.
    rewrite int64_small in H by lia.
    destruct (Z.leb_spec 5 (c + 1)) as [H5|H5]; inversion H; subst; [|lia].
    replace (c + 1) with 5 by lia.
    unfold_world. eexists (trace w ++ [_]). rewrite <- app_assoc. reflexivity.
  - rewrite (claimBody_unauthorized _ _ _ _ _ _ Hr Ho) in H. inversion H; subst. lia.
  - destruct (claimBody_failed task token c _ _ _ Hr Ho) as (e & _ & Hrun).
    rewrite Hrun in H. inversion H; subst. lia.
Qed.

Lemma claimLoop_stop tasks : forall token c w flow tok c' w',
  0 <= c < 5 ->
  claimLoop tasks token c w = (Done (flow, tok, c'), w') ->
  match flow with
  | Return => exists tr, trace w' = tr ++ stopLines
  | _ => 0 <= c' < 5
  end.
Proof.
  induction tasks as [|task rest IH]; intros token c w flow tok c' w' Hc H.
  - cbn in H. inversion H; subst. exact Hc.
  - cbn [claimLoop] in H. unfold bind at 1 in H.
    destruct (claimBody task token c w) as [[[[flow1 tok1] c1]| |] w1] eqn:Hb;
      try discriminate.
    apply claimBody_stop in Hb; [|exact Hc].
    destruct flow1.
    + apply (IH _ _ _ _ _ _ _ Hb H).
    + inversion H; subst. exact Hb.
    + inversion H; subst. exact Hb.
Qed.

Lemma mainLoopFrom_stop verbose fuel : forall token c w w',
  0 <= c < 5 ->
  mainLoopFrom fuel token c verbose w = (Done tt, w') ->
  exists tr, trace w' = tr ++ stopLines.
Proof.
  induction fuel as [|fuel IH]; intros token c w w' Hc H; [discriminate|].
  cbn [mainLoopFrom] in H. unfold bind at 1 in H.
  destruct (fetchPhase token verbose w) as [[[tok [tasks|e]]| |] w1];
    try discriminate.
  - unfold bind at 1 in H.
    destruct (claimLoop tasks tok c w1) as [[[[flow tok'] c']| |] w2] eqn:Hcl;
      try discriminate.
    apply claimLoop_stop in Hcl; [|exact Hc].
    destruct flow.
    + unfold bind, sleep, emit, update in H. exact (IH _ _ _ _ Hcl H).
    + unfold bind, sleep, emit, update in H. exact (IH _ _ _ _ Hcl H).
    + inversion H; subst. exact Hcl.
  - destruct (strings.Contains e "401").
    + unfold bind at 1 in H. rewrite refreshToken_run in H.
      unfold bind, send, emit, update in H. apply (IH _ 0 _ _) in H; [exact H|lia].
    + unfold bind, logPrintln, sleep, emit, update in H. exact (IH _ _ _ _ Hc H).
Qed.

(** X11.  Whatever the platform answers, there is one way out of [mainLoop]:
    when it returns, the last two lines it logged are the count at five
    and the notice that the bot stops. *)
Theorem mainLoop_returns_after_notice fuel token verbose w :
  fst (mainLoop fuel token verbose w) = Done tt ->
  exists tr, trace (snd (mainLoop fuel token verbose w)) = tr ++ stopLines.
Proof.
  intros H. unfold mainLoop in *.
  destruct (mainLoopFrom fuel token 0 verbose w) as [res w'] eqn:E.
  cbn [fst snd] in *. subst res.
  apply (mainLoopFrom_stop verbose fuel token 0 w w'); [lia|exact E].
Qed.

(** X11, on a sample script. *)
Lemma mainLoop_returns_after_notice_witness :
  exists tr, trace (snd (mainLoop 4 "tok" false forbiddenWorld)) = tr ++ stopLines.
Proof.
  apply (mainLoop_returns_after_notice 4 "tok" false forbiddenWorld).
  vm_compute. reflexivity.
Defined.

(** *** The statuses of success *)

Lemma fst_bind_update {A} (f : World -> World) (k : IO A) w :
  fst ((update f ;; k) w) = fst (k (f w)).
Proof. reflexivity. Qed.

Lemma signupTargetOn_settles token slug replies : forall w,
  fst (signupTargetOn token slug replies w) = Done None <->
  exists ra b, settle replies = Some (Response 200 ra b).
Proof.
  induction replies as [|r rest IH]; intros w.
  - cbn. split; [discriminate|intros (ra & b & H); discriminate].
  - rewrite settle_cons. destruct r as [msg|code ra body].
    { cbn. split; [discriminate|intros (ra & b & H); discriminate]. }
    destruct (Z.eqb_spec code 429) as [->|N429].
    { rewrite signupTargetOn_429. apply IH. }
    cbn [signupTargetOn]. unfold setSignupReplies, emit. rewrite !fst_bind_update.
    change http.StatusOK with 200. change http.StatusUnauthorized with 401.
    destruct (Z.eqb_spec code 200) as [->|N200].
    { cbn. split; [eauto|reflexivity]. }
    destruct (Z.eqb_spec code 401) as [->|N401].
    { cbn. split; [discriminate|intros (ra' & b & H); inversion H]. }
    rewrite (proj2 (Z.eqb_neq code 429)) by exact N429.
    cbn. split; [discriminate|intros (ra' & b & H); inversion H; congruence].
Qed.

Lemma getUnregisteredTargetsOn_settles token replies : forall w targets,
  fst (getUnregisteredTargetsOn token replies w) = Done (Ok targets) <->
  exists ra, settle replies = Some (Response 200 ra (Decoded targets)).
Proof.
  induction replies as [|r rest IH]; intros w targets.
  - cbn. split; [discriminate|intros (ra & H); discriminate].
  - rewrite settle_cons. destruct r as [msg|code ra body].
    { cbn. split; [discriminate|intros (ra & H); discriminate]. }
    destruct (Z.eqb_spec code 429) as [->|N429].
    { rewrite getUnregisteredTargetsOn_429. apply IH. }
    cbn [getUnregisteredTargetsOn]. unfold setTargetsReplies, emit.
    rewrite !fst_bind_update.
    change http.StatusOK with 200. change http.StatusUnauthorized with 401.
    destruct (Z.eqb_spec code 200) as [->|N200].
    { destruct body as [ts|msg]; cbn.
      - split; [intros H; inversion H; eauto|intros (ra' & H); inversion H; reflexivity].
      - split; [discriminate|intros (ra' & H); discriminate]. }
    destruct (Z.eqb_spec code 401) as [->|N401].
    { cbn. split; [discriminate|intros (ra' & H); inversion H]. }
    rewrite (proj2 (Z.eqb_neq code 429)) by exact N429.
    cbn. split; [discriminate|intros (ra' & H); inversion H; congruence].
Qed.

(** X13.  What counts as success.  A claim has succeeded exactly when its
    reply is a 201; a signup, exactly when the first reply that is not a
    429 is a 200, whatever its body; a fetch of the targets, exactly when
    the first reply that is not a 429 is a 200 with a body that decodes.
    So a claim answered with 200 and a signup answered with 201 are
    failures. *)
Theorem success_statuses token w :
  (forall task r rs,
     claimReplies w = r :: rs ->
     (fst (postClaimTask token task w) = Done None <->
      exists ra b, r = Response 201 ra b)) /\
  (forall slug,
     fst (signupTarget token slug w) = Done None <->
     exists ra b, settle (signupReplies w) = Some (Response 200 ra b)) /\
  (forall targets,
     fst (getUnregisteredTargets token w) = Done (Ok targets) <->
     exists ra, settle (targetsReplies w) = Some (Response 200 ra (Decoded targets))).
Proof.
  split; [|split].
  - intros task r rs Hr. rewrite (postClaimTask_run _ _ _ _ _ Hr). cbn [fst].
    destruct r as [msg|code ra b].
    { cbn. split; [discriminate|intros (ra & b & H); discriminate]. }
    unfold claimError. change http.StatusCreated with 201.
    destruct (Z.eqb_spec code 201) as [->|N].
    { split; [eauto|reflexivity]. }
    split; [|intros (ra' & b' & H); inversion H; congruence].
    repeat (destruct (_ =? _); [discriminate|]). discriminate.
  - intros slug. apply signupTargetOn_settles.
  - intros targets. apply getUnregisteredTargetsOn_settles.
Qed.

(** X13, on a sample script. *)
Lemma success_statuses_witness :
  (fst (postClaimTask "tok" mission1 (twoMissions 200 201)) = Done None <->
   exists ra b, status 200 = Response 201 ra b) /\
  (fst (signupTarget "tok" "acme" refusedSignup) = Done None <->
   exists ra b, settle (signupReplies refusedSignup) = Some (Response 200 ra b)).
Proof.
  split.
  - apply (proj1 (success_statuses "tok" (twoMissions 200 201))
             mission1 (status 200) [status 201]).
    reflexivity.
  - apply (proj1 (proj2 (success_statuses "tok" refusedSignup)) "acme").
Defined.

(** *** Errors told apart by their text *)





